(** * ARIS risk index: the scoring and explanation engine of [app.py]

    A shallow embedding of [calculate_aris_data] and of the decision logic of
    [explain_risk], with the properties the specification states about them.

    Numbers.  Python floats are taken as exact rationals ([Q]); a decimal
    literal of the source ([0.3], [0.45], ...) is the rational it denotes.
    Python integers are [Z].  Exceptions are values of an error monad
    ([sum exn], ExtLib), so that a division whose divisor is zero, or a
    prediction call that raises, is visible in the result type. *)

From Stdlib Require Import ZArith QArith Qround Qminmax Lia Lqa List Bool.
From Stdlib Require Import String.
From ExtLib Require Import Structures.Monad Structures.MonadExc.
From ExtLib Require Import Data.Monads.EitherMonad.
Import ListNotations.
Import MonadNotation.
Local Open Scope monad_scope.
Local Open Scope Z_scope.
Local Open Scope Q_scope.

(** ** Python primitives *)

Module Py.

(** The exceptions that the modelled code can meet. *)
Inductive exn : Type :=
| ZeroDivisionError
| PredictError.

(** A computation that returns an [A] or raises. *)
Definition M (A : Type) : Type := sum exn A.

#[global] Instance Monad_M : Monad M := Monad_either exn.
#[global] Instance Exc_M : MonadExc exn M := Exception_either exn.

(** [a < b] and [a > b] on floats. *)
Definition lt (a b : Q) : bool := negb (Qle_bool b a).
Definition gt (a b : Q) : bool := lt b a.

(** [a / b]: true division, raising on a zero divisor. *)
Definition div (a b : Q) : M Q :=
  if Qeq_bool b 0 then raise ZeroDivisionError else ret (a / b).

(** [round(x)] with one argument: the nearest integer, a tie going to the
    even neighbour. *)
Definition round (x : Q) : Z :=
  let f := Qfloor x in
  match Qcompare (x - inject_Z f) (1 # 2) with
  | Lt => f
  | Gt => (f + 1)%Z
  | Eq => if Z.even f then f else (f + 1)%Z
  end.

(** [int(x)]: truncation toward zero. *)
Definition int (x : Q) : Z :=
  if lt x 0 then Qceiling x else Qfloor x.

(** [min(a, b)]: the first argument unless the second is smaller. *)
Definition min (a b : Q) : Q := if lt b a then b else a.

End Py.

(** ** Data model *)

(** The eight readings that [calculate_aris_data] receives after [model]. *)
Record SensorReading : Type := mkReading {
  vibration : Q;
  temp : Q;
  corrosion_score : Q;
  change_rate : Q;
  flow_rate : Q;
  lube_health : Q;
  stress_in : Q;
  rul_in : Q
}.

(** The row handed to the classifier: [Vibration_X], [Bearing_Temp],
    [Historical_Corrosion_Score], [Vibration_Change_Rate]. *)
Definition features : Type := (Q * Q * Q * Q)%type.

(** A loaded model: [model.predict_proba(new_data)[0][1]], which returns a
    number or raises. *)
Definition classifier : Type := features -> Py.M Q.

(** What [load_model] returns: the model, or [None] when loading failed. *)
Definition model : Type := option classifier.

(** ** [calculate_aris_data] *)

(** Lines 34-35: the one-row frame [new_data]. *)
Definition feature_row (r : SensorReading) : features :=
  (vibration r, temp r, corrosion_score r, change_rate r).

(** Lines 47-74: the accumulator [extra_risk_points], from the two normalized
    values computed just before it and the four operational readings. *)
Definition extra_risk_points (temp_normalized vib_normalized : Q)
    (r : SensorReading) : Q :=
  let extra_risk_points := 0 in
  let extra_risk_points :=
    if Py.gt temp_normalized 0.3
    then extra_risk_points + (temp_normalized - 0.3) * 150
    else extra_risk_points in
  let extra_risk_points :=
    if Py.gt vib_normalized 0.3
    then extra_risk_points + (vib_normalized - 0.3) * 150
    else extra_risk_points in
  let extra_risk_points :=
    if Py.lt (flow_rate r) 0.7
    then extra_risk_points + (0.7 - flow_rate r) * 50
    else if Py.gt (flow_rate r) 1.1
    then extra_risk_points + (flow_rate r - 1.1) * 75
    else extra_risk_points in
  let extra_risk_points :=
    if Py.lt (lube_health r) 0.4
    then extra_risk_points + (0.4 - lube_health r) * 100
    else extra_risk_points in
  let extra_risk_points :=
    if Py.gt (stress_in r) 0.6
    then extra_risk_points + (stress_in r - 0.6) * 80
    else extra_risk_points in
  let extra_risk_points :=
    if Py.lt (rul_in r) 0.3
    then extra_risk_points + (0.3 - rul_in r) * 120
    else extra_risk_points in
  extra_risk_points.

(** The whole function.  It returns the triple
    [(risk_index, corrosion_contribution, rate_contribution)]. *)
Definition calculate_aris_data (model : model) (r : SensorReading)
  : Py.M (Z * Z * Z) :=
  match model with
  | None => ret (0, 0, 0)%Z
  | Some clf =>
    let new_data := feature_row r in
    match clf new_data with
    | inl _ => ret (0, 0, 0)%Z
    | inr failure_prob =>
      let risk_index := Py.round (failure_prob * 120) in
      temp_normalized <- Py.div (temp r - 30) 55 ;;
      vib_normalized <- Py.div (vibration r - 1) 24 ;;
      let extra_risk_points :=
        extra_risk_points temp_normalized vib_normalized r in
      let risk_index := inject_Z risk_index + extra_risk_points in
      let risk_index := Py.int (Py.min 100 risk_index) in
      corrosion_normalized <- Py.div (corrosion_score r - 0.1) 0.9 ;;
      rate_normalized <- Py.div (change_rate r) 1.0 ;;
      let corrosion_influence := 0.45 * corrosion_normalized in
      let rate_influence := 0.40 * rate_normalized in
      temp_vib_influence <-
        Py.div (0.15 * (temp_normalized + vib_normalized)) 2 ;;
      let total_dynamic_influence :=
        corrosion_influence + rate_influence + temp_vib_influence in
      '(corrosion_contribution, rate_contribution) <-
        (if Py.gt total_dynamic_influence 0.01
         then
           c <- Py.div corrosion_influence total_dynamic_influence ;;
           d <- Py.div rate_influence total_dynamic_influence ;;
           ret (Py.round (c * 100), Py.round (d * 100))
         else ret (45, 40)%Z) ;;
      let total_contribution :=
        (corrosion_contribution + rate_contribution)%Z in
      '(corrosion_contribution, rate_contribution) <-
        (if (100 <? total_contribution)%Z
         then
           c <- Py.div (inject_Z (corrosion_contribution * 100))
                       (inject_Z total_contribution) ;;
           d <- Py.div (inject_Z (rate_contribution * 100))
                       (inject_Z total_contribution) ;;
           ret (Py.round c, Py.round d)
         else ret (corrosion_contribution, rate_contribution)) ;;
      ret (risk_index, corrosion_contribution, rate_contribution)
    end
  end.

(** ** [explain_risk]: the decisions behind what is displayed

    The function renders text and charts; the model keeps every branch it
    takes on its arguments and drops the rendering.  A message is kept as
    its kind and the reading it quotes. *)

(** The five labels of [delta_text] and of the recommendation chain. *)
Inductive Tier : Type :=
| Safe | Low | Medium | High | ImminentFailure.

(** Lines 136-141: the pair [(dominant_factor, action_focus)] that the
    recommendation text quotes. *)
Inductive ActionFocus : Type :=
| CorrosionIntegrity      (* UT / ILI / OSI inspection *)
| VibrationTemperature.   (* balancing, alignment, bearing *)

(** Lines 234-239: the cause announced first in the explanation. *)
Inductive Factor : Type :=
| Corrosion | Mechanical | RateOfDegradation.

(** Lines 203-220: what is recommended. *)
Inductive Recommendation : Type :=
| NoIntervention
| WorkOrder30Days (focus : ActionFocus)
| UrgentWorkOrder7Days (focus : ActionFocus)
| PlannedShutdown48h (focus : ActionFocus)
| ImmediateShutdown.

(** Lines 247-257: one appended message, with the value it prints. *)
Inductive Alert : Type :=
| LowFlow (v : Q)
| HighFlow (v : Q)
| LowLube (v : Q)
| HighStress (v : Q)
| LowRUL (v : Q).

(** Lines 259-263: what is written under the contributing causes. *)
Inductive Note : Type :=
| AlertNote (a : Alert)
| NoCriticalNotes.

Record Explanation : Type := mkExplanation {
  action_focus : ActionFocus;
  delta_text : Tier;
  recommendation : Recommendation;
  main_cause : Factor * Z;
  notes : list Note
}.

Definition explain_risk (risk_index corr_contrib rate_contrib : Z)
    (vibration_in flow_rate lube_health stress_in rul_in : Q) : Explanation :=
  let action_focus :=
    if ((100 - corr_contrib <? corr_contrib)%Z
        || ((50 <? corr_contrib)%Z && Py.lt vibration_in 10))%bool
    then CorrosionIntegrity
    else VibrationTemperature in
  let delta_text :=
    if (risk_index <? 20)%Z then Safe else
    if (risk_index <? 35)%Z then Low else
    if (risk_index <? 50)%Z then Medium else
    if (risk_index <? 80)%Z then High else ImminentFailure in
  let recommendation :=
    if (risk_index <? 20)%Z then NoIntervention
    else if ((20 <=? risk_index)%Z && (risk_index <? 35)%Z)%bool
    then WorkOrder30Days action_focus
    else if ((35 <=? risk_index)%Z && (risk_index <? 50)%Z)%bool
    then UrgentWorkOrder7Days action_focus
    else if ((50 <=? risk_index)%Z && (risk_index <? 80)%Z)%bool
    then PlannedShutdown48h action_focus
    else ImmediateShutdown in
  let vib_temp_contrib := (100 - corr_contrib - rate_contrib)%Z in
  let vib_temp_contrib :=
    if (vib_temp_contrib <? 0)%Z then 0%Z else vib_temp_contrib in
  let main_cause :=
    if ((vib_temp_contrib <=? corr_contrib)%Z
        && (rate_contrib <=? corr_contrib)%Z)%bool
    then (Corrosion, corr_contrib)
    else if ((corr_contrib <=? vib_temp_contrib)%Z
             && (rate_contrib <=? vib_temp_contrib)%Z)%bool
    then (Mechanical, vib_temp_contrib)
    else (RateOfDegradation, rate_contrib) in
  let messages := [] in
  let messages :=
    if Py.lt flow_rate 0.7 then messages ++ [LowFlow flow_rate]
    else messages in
  let messages :=
    if Py.gt flow_rate 1.1 then messages ++ [HighFlow flow_rate]
    else messages in
  let messages :=
    if Py.lt lube_health 0.4 then messages ++ [LowLube lube_health]
    else messages in
  let messages :=
    if Py.gt stress_in 0.6 then messages ++ [HighStress stress_in]
    else messages in
  let messages :=
    if Py.lt rul_in 0.3 then messages ++ [LowRUL rul_in]
    else messages in
  let notes :=
    match messages with
    | [] => [NoCriticalNotes]
    | _ :: _ => map AlertNote messages
    end in
  mkExplanation action_focus delta_text recommendation main_cause notes.

(** Lines 361-383 of the page: the assessment is computed, then explained
    with the readings it was computed from. *)
Definition assess (model : model) (r : SensorReading) : Py.M Explanation :=
  '(risk_result, corr_contrib, rate_contrib) <- calculate_aris_data model r ;;
  ret (explain_risk risk_result corr_contrib rate_contrib (vibration r)
         (flow_rate r) (lube_health r) (stress_in r) (rul_in r)).

(** A classifier that returns the probability [p] whatever the row: the
    stub that stands for a trained model. *)
Definition stub (p : Q) : classifier := fun _ => inr p.

(** A classifier whose prediction call raises. *)
Definition failing : classifier := fun _ => inl Py.PredictError.

(** The first scenario of the specification: the default readings of the
    page. *)
Definition r_scenario : SensorReading :=
  mkReading 7.0 55.0 0.2 0.15 1.0 0.8 0.4 0.7.

(** ** The values computed by [calculate_aris_data], as functions of the
       reading

    [calculate_aris_data] returns three integers only.  The definitions below
    name its intermediate values; [calculate_aris_data_returns] proves that
    they are the ones the function computes. *)

Definition temp_normalized (r : SensorReading) : Q := (temp r - 30) / 55.
Definition vib_normalized (r : SensorReading) : Q := (vibration r - 1) / 24.

(** The base score of a returned probability (line 42). *)
Definition base_score (failure_prob : Q) : Z := Py.round (failure_prob * 120).

(** The points added to the base score (line 78). *)
Definition augmentation_points (r : SensorReading) : Q :=
  extra_risk_points (temp_normalized r) (vib_normalized r) r.

(** The returned index (line 79). *)
Definition final_risk_index (failure_prob : Q) (r : SensorReading) : Z :=
  Py.int (Py.min 100 (inject_Z (base_score failure_prob)
                      + augmentation_points r)).

Definition corrosion_influence (r : SensorReading) : Q :=
  0.45 * ((corrosion_score r - 0.1) / 0.9).
Definition rate_influence (r : SensorReading) : Q :=
  0.40 * (change_rate r / 1.0).
Definition temp_vib_influence (r : SensorReading) : Q :=
  0.15 * (temp_normalized r + vib_normalized r) / 2.
Definition total_dynamic_influence (r : SensorReading) : Q :=
  corrosion_influence r + rate_influence r + temp_vib_influence r.

(** Lines 90-95: each ratio rounded to a percentage, or the fixed pair. *)
Definition rounded_shares (r : SensorReading) : Z * Z :=
  if Py.gt (total_dynamic_influence r) 0.01
  then (Py.round (corrosion_influence r / total_dynamic_influence r * 100),
        Py.round (rate_influence r / total_dynamic_influence r * 100))
  else (45, 40)%Z.

(** Lines 97-100: the two percentages rescaled when they exceed 100. *)
Definition rescaled_shares (cd : Z * Z) : Z * Z :=
  let '(c, d) := cd in
  if (100 <? c + d)%Z
  then (Py.round (inject_Z (c * 100) / inject_Z (c + d)),
        Py.round (inject_Z (d * 100) / inject_Z (c + d)))
  else (c, d).

Definition contribution_shares (r : SensorReading) : Z * Z :=
  rescaled_shares (rounded_shares r).

(** Lines 226-227 of [explain_risk]: the third share. *)
Definition vib_temp_contrib (corr_contrib rate_contrib : Z) : Z :=
  let v := (100 - corr_contrib - rate_contrib)%Z in
  if (v <? 0)%Z then 0%Z else v.

(** ** The terms of the specification *)

(** Section 4.3: one term per factor, zero when its threshold is not
    crossed. *)
Module Spec.

Definition temperature_term (r : SensorReading) : Q :=
  if Py.gt (temp_normalized r) 0.3
  then (temp_normalized r - 0.3) * 150 else 0.
Definition vibration_term (r : SensorReading) : Q :=
  if Py.gt (vib_normalized r) 0.3
  then (vib_normalized r - 0.3) * 150 else 0.
Definition under_flow_term (r : SensorReading) : Q :=
  if Py.lt (flow_rate r) 0.7 then (0.7 - flow_rate r) * 50 else 0.
Definition over_flow_term (r : SensorReading) : Q :=
  if Py.gt (flow_rate r) 1.1 then (flow_rate r - 1.1) * 75 else 0.
Definition lubrication_term (r : SensorReading) : Q :=
  if Py.lt (lube_health r) 0.4 then (0.4 - lube_health r) * 100 else 0.
Definition stress_term (r : SensorReading) : Q :=
  if Py.gt (stress_in r) 0.6 then (stress_in r - 0.6) * 80 else 0.
Definition rul_term (r : SensorReading) : Q :=
  if Py.lt (rul_in r) 0.3 then (0.3 - rul_in r) * 120 else 0.

Definition augmentation (r : SensorReading) : Q :=
  temperature_term r + vibration_term r
  + under_flow_term r + over_flow_term r
  + lubrication_term r + stress_term r + rul_term r.

(** Section 4.7: the category with the largest share, the earlier one in
    the order corrosion, mechanical, rate winning a tie.  A later category
    replaces the current choice only with a strictly larger share. *)
Definition larger (best next : Factor * Z) : Factor * Z :=
  if (snd best <? snd next)%Z then next else best.

Definition dominant_factor (corrosion mechanical rate : Z) : Factor * Z :=
  fold_left larger
    [(Mechanical, mechanical); (RateOfDegradation, rate)]
    (Corrosion, corrosion).

(** Section 3: the five bands, each with its lower bound included. *)
Definition in_band (t : Tier) (risk_index : Z) : bool :=
  match t with
  | Safe => (risk_index <? 20)%Z
  | Low => (20 <=? risk_index)%Z && (risk_index <? 35)%Z
  | Medium => (35 <=? risk_index)%Z && (risk_index <? 50)%Z
  | High => (50 <=? risk_index)%Z && (risk_index <? 80)%Z
  | ImminentFailure => (80 <=? risk_index)%Z && (risk_index <=? 100)%Z
  end.

End Spec.

(** The tier that a recommendation belongs to (section 4.6). *)
Definition tier_of_recommendation (rec : Recommendation) : Tier :=
  match rec with
  | NoIntervention => Safe
  | WorkOrder30Days _ => Low
  | UrgentWorkOrder7Days _ => Medium
  | PlannedShutdown48h _ => High
  | ImmediateShutdown => ImminentFailure
  end.

(** ** Documented ranges

    Section 3 of the specification and the bounds of the sliders that feed
    [calculate_aris_data] (lines 309-334). *)
Record valid_reading (r : SensorReading) : Prop := mkValid {
  vibration_range : 1 <= vibration r <= 25;
  temp_range : 30 <= temp r <= 85;
  corrosion_range : 0.1 <= corrosion_score r <= 1;
  change_rate_range : 0 <= change_rate r <= 1;
  flow_rate_range : 0.5 <= flow_rate r <= 1.5;
  lube_health_range : 0 <= lube_health r <= 1;
  stress_range : 0 <= stress_in r <= 1;
  rul_range : 0 <= rul_in r <= 1
}.

(** Two readings with the same eight numbers. *)
Record same_reading (r1 r2 : SensorReading) : Prop := mkSame {
  same_vibration : vibration r1 == vibration r2;
  same_temp : temp r1 == temp r2;
  same_corrosion : corrosion_score r1 == corrosion_score r2;
  same_change_rate : change_rate r1 == change_rate r2;
  same_flow_rate : flow_rate r1 == flow_rate r2;
  same_lube_health : lube_health r1 == lube_health r2;
  same_stress : stress_in r1 == stress_in r2;
  same_rul : rul_in r1 == rul_in r2
}.

(** Two prediction calls with the same outcome. *)
Definition same_output (o1 o2 : Py.M Q) : Prop :=
  match o1, o2 with
  | inr p1, inr p2 => p1 == p2
  | inl e1, inl e2 => e1 = e2
  | _, _ => False
  end.

(** Two models that are both missing, or whose prediction calls on the two
    readings have the same outcome. *)
Definition same_classifier_output (m1 m2 : model) (r1 r2 : SensorReading)
  : Prop :=
  match m1, m2 with
  | None, None => True
  | Some c1, Some c2 => same_output (c1 (feature_row r1)) (c2 (feature_row r2))
  | _, _ => False
  end.

(** The assessment cannot be made: no model, or a prediction that raises. *)
Definition unavailable (m : model) (r : SensorReading) : Prop :=
  match m with
  | None => True
  | Some clf => exists e, clf (feature_row r) = inl e
  end.

(** A reading within the documented ranges, on the steps of the sliders, with
    every factor at rest. *)
Definition r_quiet : SensorReading :=
  mkReading 1.0 40.0 0.1 0.0 1.0 0.8 0.4 0.7.

(** The lowest reading of every slider on which the classifier depends: the
    three influences are all zero. *)
Definition r_rest : SensorReading :=
  mkReading 1.0 30.0 0.1 0.0 1.0 0.8 0.4 0.7.

(** The numbers of [r_scenario], written as fractions that are not
    reduced. *)
Definition r_scenario_unreduced : SensorReading :=
  mkReading (14 # 2) (110 # 2) (2 # 10) (15 # 100)
            (3 # 3) (8 # 10) (4 # 10) (14 # 20).

(** ** Orders on readings *)

(** The flow rate of [r2] is the flow rate of [r1] moved away from the band
    0.7 to 1.1, or not moved. *)
Definition flow_farther (r1 r2 : SensorReading) : Prop :=
  flow_rate r1 == flow_rate r2
  \/ (flow_rate r2 <= flow_rate r1 /\ flow_rate r1 <= 1.1)
  \/ (flow_rate r1 <= flow_rate r2 /\ 0.7 <= flow_rate r1).

(** [r2] is at least as degraded as [r1] on every factor that
    [extra_risk_points] reads. *)
Record at_least_as_degraded (r1 r2 : SensorReading) : Prop := mkDegraded {
  hotter : temp r1 <= temp r2;
  shakier : vibration r1 <= vibration r2;
  flow_off : flow_farther r1 r2;
  less_lubricated : lube_health r2 <= lube_health r1;
  more_stressed : stress_in r1 <= stress_in r2;
  older : rul_in r2 <= rul_in r1
}.

(** No threshold of [extra_risk_points] is crossed. *)
Record at_rest (r : SensorReading) : Prop := mkRest {
  temp_rest : temp r <= 46.5;
  vibration_rest : vibration r <= 8.2;
  flow_rest : 0.7 <= flow_rate r <= 1.1;
  lube_rest : 0.4 <= lube_health r;
  stress_rest : stress_in r <= 0.6;
  rul_rest : 0.3 <= rul_in r
}.

(** Two readings with the same row for the classifier. *)
Definition same_features (r1 r2 : SensorReading) : Prop :=
  vibration r1 == vibration r2 /\ temp r1 == temp r2
  /\ corrosion_score r1 == corrosion_score r2
  /\ change_rate r1 == change_rate r2.

(** Two readings that differ, if at all, in the corrosion score and in the
    change rate. *)
Definition same_but_inspection (r1 r2 : SensorReading) : Prop :=
  vibration r1 == vibration r2 /\ temp r1 == temp r2
  /\ flow_rate r1 == flow_rate r2 /\ lube_health r1 == lube_health r2
  /\ stress_in r1 == stress_in r2 /\ rul_in r1 == rul_in r2.

(** The reading with every factor at the worst end of its slider. *)
Definition r_worst : SensorReading :=
  mkReading 25.0 85.0 1.0 1.0 1.5 0.0 1.0 0.0.

(** The order of the five tiers. *)
Definition tier_rank (t : Tier) : Z :=
  match t with
  | Safe => 0
  | Low => 1
  | Medium => 2
  | High => 3
  | ImminentFailure => 4
  end%Z.

(** ** [get_historical_data]

    The two values that the function draws from outside are arguments: the
    day of [pd.Timestamp.now()] and the thirty samples of
    [np.random.normal(0, 5, 30)]. *)

(** [np.linspace(start, stop, num)]. *)
Definition linspace (start stop : Q) (num : nat) : list Q :=
  let step := (stop - start) / inject_Z (Z.of_nat (num - 1)) in
  map (fun i => start + inject_Z (Z.of_nat i) * step) (seq 0 num).

(** [np.clip(x, lo, hi)]: [minimum(hi, maximum(x, lo))]. *)
Definition clip (x lo hi : Q) : Q :=
  let m := if Py.lt x lo then lo else x in
  if Py.lt hi m then hi else m.

(** [a[-1] = x] on an array that is not empty. *)
Definition set_last (a : list Z) (x : Z) : list Z :=
  match a with
  | [] => []
  | _ :: _ => removelast a ++ [x]
  end.

(** The frame returned: one row per day, the day and the rounded risk. *)
Definition get_historical_data (today : Z) (normal : nat -> Q)
    (risk_index : Z) : list (Z * Z) :=
  let days := map (fun i => (today - 29 + Z.of_nat i)%Z) (seq 0 30) in
  let base_value := (risk_index - 15)%Z in
  let history := linspace (inject_Z base_value) (inject_Z risk_index) 30 in
  let noise := map normal (seq 0 30) in
  let historical_risks :=
    map (fun hn => Py.round (clip (fst hn + snd hn) 0 100))
        (combine history noise) in
  let historical_risks := set_last historical_risks risk_index in
  combine days historical_risks.

(** ** The page of [app.py] (lines 277-383) *)

(** What [joblib.load] can raise, as [load_model] tells them apart. *)
Inductive load_exn : Type :=
| FileNotFoundError
| OtherLoadError.

(** Lines 13-22, from the outcome of [joblib.load('aris_model.pkl')]. *)
Definition load_model (joblib_load : load_exn + classifier) : model :=
  match joblib_load with
  | inr model => Some model
  | inl FileNotFoundError => None
  | inl _ => None
  end.

(** What the page shows under its title. *)
Inductive Page : Type :=
| ModelUnavailable                 (* lines 283-286: notice, then [st.stop()] *)
| Assessment (e : Explanation).    (* lines 361-383 *)

Definition page (joblib_load : load_exn + classifier) (r : SensorReading)
  : Py.M Page :=
  let model := load_model joblib_load in
  match model with
  | None => ret ModelUnavailable
  | Some _ => e <- assess model r ;; ret (Assessment e)
  end.

(** ** [Assets_Dashboard.py] *)

Module Dashboard.

(** Lines 26-35. *)
Definition color_risk (val : Z) : string :=
  if (80 <=? val)%Z then "background-color: #ff4b4b"%string
  else if (50 <=? val)%Z then "background-color: #ff9a00"%string
  else if (35 <=? val)%Z then "background-color: #fff400"%string
  else "background-color: #00ba7c"%string.

(** Lines 89-95: the colour of a bar, by the status it counts.  The five
    statuses are the five labels of [delta_text]. *)
Definition color_discrete_map (status : Tier) : string :=
  match status with
  | Safe => "#00ba7c"
  | Low => "#fff400"
  | Medium => "#ff9a00"
  | High => "#ff9a00"
  | ImminentFailure => "#ff4b4b"
  end%string.

(** Lines 43-48, on the column ['ARIS Index'] of the frame. *)
Definition total_assets (aris_index : list Z) : nat :=
  List.length aris_index.

Definition high_risk (aris_index : list Z) : list Z :=
  filter (fun v => (50 <=? v)%Z) aris_index.

Definition low_risk_count (aris_index : list Z) : nat :=
  List.length (filter (fun v => (v <? 35)%Z) aris_index).

(** The number printed in the delta of the second metric, before it is
    formatted. *)
Definition high_risk_percent (aris_index : list Z) : Py.M Q :=
  q <- Py.div (inject_Z (Z.of_nat (List.length (high_risk aris_index))))
              (inject_Z (Z.of_nat (total_assets aris_index))) ;;
  ret (q * 100).

(** Lines 12-19: the two columns of the frame that are computed with. *)
Definition aris_index : list Z := [15; 68; 42; 95; 29]%Z.
Definition status : list Tier := [Safe; High; Medium; ImminentFailure; Low].

End Dashboard.

(** * Properties *)

(** ** Python primitives *)

Lemma lt_true a b : Py.lt a b = true <-> a < b.
Proof.
  unfold Py.lt. rewrite negb_true_iff.
  destruct (Qle_bool b a) eqn:E.
  - apply Qle_bool_iff in E. split; [discriminate | intros H; exfalso; lra].
  - split; [intros _ | reflexivity].
    apply Qnot_le_lt. intros H. apply Qle_bool_iff in H. congruence.
Qed.

Lemma lt_false a b : Py.lt a b = false <-> b <= a.
Proof.
  unfold Py.lt. rewrite negb_false_iff. apply Qle_bool_iff.
Qed.

Lemma lt_reflect a b : reflect (a < b) (Py.lt a b).
Proof.
  destruct (Py.lt a b) eqn:E; constructor.
  - now apply lt_true.
  - apply lt_false in E. lra.
Qed.

Lemma floor_bounds x : inject_Z (Qfloor x) <= x < inject_Z (Qfloor x) + 1.
Proof.
  split; [apply Qfloor_le |].
  pose proof (Qlt_floor x) as H. rewrite inject_Z_plus in H. exact H.
Qed.

Lemma round_spec x :
  inject_Z (Py.round x) - (1 # 2) <= x <= inject_Z (Py.round x) + (1 # 2)
  /\ (x == inject_Z (Py.round x) + (1 # 2) -> Z.even (Py.round x) = true)
  /\ (x == inject_Z (Py.round x) - (1 # 2) -> Z.even (Py.round x) = true).
Proof.
  unfold Py.round. pose proof (floor_bounds x) as [Hlo Hhi].
  set (f := Qfloor x) in *.
  destruct (Qcompare_spec (x - inject_Z f) (1 # 2)) as [E | E | E];
    [destruct (Z.even f) eqn:Ev | | ];
    rewrite ?inject_Z_plus; change (inject_Z 1) with 1;
    repeat split; try lra;
    try (intros _; first [exact Ev | rewrite Z.even_add, Ev; reflexivity]);
    intros H; exfalso; lra.
Qed.

Lemma round_nonneg x : 0 <= x -> (0 <= Py.round x)%Z.
Proof.
  intros Hx. destruct (round_spec x) as [[Hlo Hhi] _].
  assert (H : inject_Z (-1) < inject_Z (Py.round x)).
  { change (inject_Z (-1)) with (-1 # 1). lra. }
  rewrite <- Zlt_Qlt in H. lia.
Qed.

Lemma round_add_le_even a b n :
  Z.even n = true -> a + b <= inject_Z n ->
  (Py.round a + Py.round b <= n)%Z.
Proof.
  intros Hn Hab.
  destruct (round_spec a) as [[Ha _] [_ Hta]].
  destruct (round_spec b) as [[Hb _] [_ Htb]].
  set (ka := Py.round a) in *. set (kb := Py.round b) in *.
  assert (H : inject_Z (ka + kb) <= inject_Z (n + 1)).
  { rewrite !inject_Z_plus. change (inject_Z 1) with 1. lra. }
  rewrite <- Zle_Qle in H.
  destruct (Z.eq_dec (ka + kb) (n + 1)) as [E | E]; [exfalso | lia].
  assert (EQ : inject_Z ka + inject_Z kb == inject_Z n + 1).
  { rewrite <- inject_Z_plus, E, inject_Z_plus. reflexivity. }
  assert (Ea : Z.even ka = true) by (apply Hta; lra).
  assert (Eb : Z.even kb = true) by (apply Htb; lra).
  assert (Z.even (ka + kb) = true) by (rewrite Z.even_add, Ea, Eb; reflexivity).
  rewrite E, Z.even_add, Hn in H0. discriminate.
Qed.

Lemma round_inject z : Py.round (inject_Z z) = z.
Proof.
  destruct (round_spec (inject_Z z)) as [[Hlo Hhi] _].
  set (k := Py.round (inject_Z z)) in *.
  assert (H1 : inject_Z k < inject_Z (z + 1)).
  { rewrite inject_Z_plus. change (inject_Z 1) with 1. lra. }
  assert (H2 : inject_Z z < inject_Z (k + 1)).
  { rewrite inject_Z_plus. change (inject_Z 1) with 1. lra. }
  rewrite <- Zlt_Qlt in H1, H2. lia.
Qed.

#[global] Instance lt_comp : Proper (Qeq ==> Qeq ==> eq) Py.lt.
Proof. intros a a' Ha b b' Hb. unfold Py.lt. now rewrite Ha, Hb. Qed.

#[global] Instance gt_comp : Proper (Qeq ==> Qeq ==> eq) Py.gt.
Proof. intros a a' Ha b b' Hb. unfold Py.gt. now rewrite Ha, Hb. Qed.

#[global] Instance round_comp : Proper (Qeq ==> eq) Py.round.
Proof.
  intros a a' Ha. unfold Py.round. cbv zeta.
  rewrite (Qfloor_comp _ _ Ha).
  assert (E : a - inject_Z (Qfloor a') == a' - inject_Z (Qfloor a'))
    by (rewrite Ha; reflexivity).
  rewrite (Qcompare_comp _ _ E _ _ (Qeq_refl (1 # 2))). reflexivity.
Qed.

#[global] Instance int_comp : Proper (Qeq ==> eq) Py.int.
Proof.
  intros a a' Ha. unfold Py.int.
  rewrite (lt_comp _ _ Ha _ _ (Qeq_refl 0)).
  rewrite (Qfloor_comp _ _ Ha), (Qceiling_comp _ _ Ha). reflexivity.
Qed.

#[global] Instance min_comp : Proper (Qeq ==> Qeq ==> Qeq) Py.min.
Proof.
  intros a a' Ha b b' Hb. unfold Py.min. rewrite Ha, Hb.
  destruct (Py.lt b' a'); assumption.
Qed.

Lemma min_spec a b : Py.min a b == Qmin a b.
Proof.
  unfold Py.min. destruct (lt_reflect b a) as [H | H].
  - symmetry. apply Q.min_r. lra.
  - symmetry. apply Q.min_l. lra.
Qed.

Lemma int_nonneg x : 0 <= x -> Py.int x = Qfloor x.
Proof.
  intros H. unfold Py.int. destruct (lt_reflect x 0); [lra | reflexivity].
Qed.

Lemma int_bounds x n : 0 <= x <= inject_Z n -> (0 <= Py.int x <= n)%Z.
Proof.
  intros [H0 Hn]. rewrite int_nonneg by assumption. split.
  - change 0%Z with (Qfloor 0). now apply Qfloor_resp_le.
  - rewrite <- (Qfloor_Z n). now apply Qfloor_resp_le.
Qed.


Lemma int_quot x : Py.int x = Z.quot (Qnum x) (Zpos (Qden x)).
Proof.
  unfold Py.int. destruct (lt_reflect x 0) as [H | H].
  - destruct x as [n d]. unfold Qlt in H. simpl in H.
    unfold Qceiling, Qfloor, Qopp. simpl.
    rewrite <- (Z.opp_involutive n) at 2.
    rewrite Z.quot_opp_l by lia.
    rewrite Z.quot_div_nonneg by lia. reflexivity.
  - destruct x as [n d]. assert (H' : 0 <= n # d) by lra.
    unfold Qle in H'. simpl in H'. simpl.
    rewrite Z.quot_div_nonneg by lia. reflexivity.
Qed.

(** ** The error monad *)

Lemma bind_inr {A B : Type} (x : A) (f : A -> Py.M B) :
  bind (inr x : Py.M A) f = f x.
Proof. reflexivity. Qed.

Lemma bind_ret {A B : Type} (x : A) (f : A -> Py.M B) :
  bind (ret x : Py.M A) f = f x.
Proof. reflexivity. Qed.

Lemma div_nonzero a b : ~ b == 0 -> Py.div a b = inr (a / b).
Proof.
  intros Hb. unfold Py.div.
  destruct (Qeq_bool b 0) eqn:E; [| reflexivity].
  apply Qeq_bool_iff in E. contradiction.
Qed.

Lemma div_zero a b : b == 0 -> Py.div a b = inl Py.ZeroDivisionError.
Proof.
  intros Hb. unfold Py.div.
  destruct (Qeq_bool b 0) eqn:E; [reflexivity |].
  apply Qeq_bool_neq in E. contradiction.
Qed.

(** ** The guards of the two divisions by a computed value *)

Lemma ratio_guard r :
  Py.gt (total_dynamic_influence r) 0.01 = true ->
  ~ total_dynamic_influence r == 0.
Proof. unfold Py.gt. intros H E. apply lt_true in H. lra. Qed.

Lemma rescale_guard (total_contribution : Z) :
  (100 <? total_contribution)%Z = true -> ~ inject_Z total_contribution == 0.
Proof.
  intros H E. apply Z.ltb_lt in H. unfold Qeq in E. simpl in E. lia.
Qed.

(** ** What [calculate_aris_data] returns *)

Lemma calculate_aris_data_unavailable m r :
  unavailable m r -> calculate_aris_data m r = inr (0, 0, 0)%Z.
Proof.
  destruct m as [clf |]; simpl; [| reflexivity].
  intros [e He]. rewrite He. reflexivity.
Qed.

(** With a model whose prediction call returns [p], no division raises and
    the three integers are the ones named above. *)
Lemma calculate_aris_data_returns (clf : classifier) r p :
  clf (feature_row r) = inr p ->
  calculate_aris_data (Some clf) r
  = inr (final_risk_index p r,
         fst (contribution_shares r), snd (contribution_shares r)).
Proof.
  intros Hp. unfold calculate_aris_data. rewrite Hp.
  rewrite (div_nonzero _ 55), bind_inr by (intros E; lra).
  rewrite (div_nonzero _ 24), bind_inr by (intros E; lra).
  rewrite (div_nonzero _ 0.9), bind_inr by (intros E; lra).
  rewrite (div_nonzero _ 1.0), bind_inr by (intros E; lra).
  rewrite (div_nonzero _ 2), bind_inr by (intros E; lra).
  fold (temp_normalized r) (vib_normalized r).
  fold (augmentation_points r) (base_score p) (final_risk_index p r).
  fold (corrosion_influence r) (rate_influence r) (temp_vib_influence r).
  fold (total_dynamic_influence r).
  unfold contribution_shares, rounded_shares.
  destruct (lt_reflect 0.01 (total_dynamic_influence r)) as [Ht | Ht];
    unfold Py.gt.
  - destruct (Py.lt 0.01 (total_dynamic_influence r)) eqn:E;
      [| apply lt_false in E; lra].
    rewrite !div_nonzero, !bind_inr by (apply ratio_guard; exact E).
    set (c := Py.round _). set (d := Py.round _).
    rewrite bind_ret. unfold rescaled_shares.
    destruct (100 <? c + d)%Z eqn:Hs.
    + rewrite !div_nonzero, !bind_inr by (apply rescale_guard; exact Hs).
      reflexivity.
    + reflexivity.
  - destruct (Py.lt 0.01 (total_dynamic_influence r)) eqn:E;
      [apply lt_true in E; lra |].
    rewrite bind_ret. unfold rescaled_shares. reflexivity.
Qed.

(** ** The heuristic augmentation *)

(** Case analysis on each comparison of the accumulator. *)
Ltac split_thresholds :=
  unfold Py.gt;
  repeat match goal with
         | |- context [Py.lt ?a ?b] => destruct (lt_reflect a b)
         end.

(** The accumulator, with its [if]/[elif] on the flow rate, is the sum of
    the seven terms. *)
Lemma extra_risk_points_sum r :
  augmentation_points r == Spec.augmentation r.
Proof.
  unfold augmentation_points, extra_risk_points, Spec.augmentation,
    Spec.temperature_term, Spec.vibration_term, Spec.under_flow_term,
    Spec.over_flow_term, Spec.lubrication_term, Spec.stress_term,
    Spec.rul_term.
  cbv zeta. split_thresholds; try ring; exfalso; lra.
Qed.

Lemma term_nonneg (b : bool) (x : Q) :
  (b = true -> 0 <= x) -> 0 <= (if b then x else 0).
Proof. destruct b; intros H; [apply H; reflexivity | lra]. Qed.

Lemma sum_nonneg (a b : Q) : 0 <= a -> 0 <= b -> 0 <= a + b.
Proof. intros Ha Hb. lra. Qed.

Lemma augmentation_nonneg r : 0 <= augmentation_points r.
Proof.
  rewrite extra_risk_points_sum.
  unfold Spec.augmentation, Spec.temperature_term, Spec.vibration_term,
    Spec.under_flow_term, Spec.over_flow_term, Spec.lubrication_term,
    Spec.stress_term, Spec.rul_term, Py.gt.
  repeat apply sum_nonneg; apply term_nonneg;
    intros H; apply lt_true in H; lra.
Qed.

(** ** The risk index *)

Lemma int_le x n : (0 <= n)%Z -> x <= inject_Z n -> (Py.int x <= n)%Z.
Proof.
  intros Hn Hx. unfold Py.int. destruct (lt_reflect x 0) as [H | H].
  - unfold Qceiling.
    assert (H0 : (Qfloor 0 <= Qfloor (- x))%Z) by (apply Qfloor_resp_le; lra).
    change (Qfloor 0) with 0%Z in H0. lia.
  - rewrite <- (Qfloor_Z n). now apply Qfloor_resp_le.
Qed.

Lemma min_le_l a b : Py.min a b <= a.
Proof. unfold Py.min. destruct (lt_reflect b a); lra. Qed.

Lemma min_nonneg a b : 0 <= a -> 0 <= b -> 0 <= Py.min a b.
Proof. intros Ha Hb. unfold Py.min. destruct (lt_reflect b a); lra. Qed.

(** The upper bound needs nothing of the probability. *)
Lemma final_risk_index_upper p r : (final_risk_index p r <= 100)%Z.
Proof.
  unfold final_risk_index. apply int_le; [lia |].
  change (inject_Z 100) with 100. apply min_le_l.
Qed.

(** The lower bound comes from a probability that is not negative and from
    augmentation terms that are never negative. *)
Lemma base_score_nonneg p : 0 <= p -> (0 <= base_score p)%Z.
Proof. intros Hp. unfold base_score. apply round_nonneg. lra. Qed.

Lemma final_risk_index_lower p r : 0 <= p -> (0 <= final_risk_index p r)%Z.
Proof.
  intros Hp. unfold final_risk_index.
  pose proof (base_score_nonneg p Hp) as Hb.
  pose proof (augmentation_nonneg r) as Ha.
  assert (Hq : 0 <= inject_Z (base_score p)).
  { change 0 with (inject_Z 0). now rewrite <- Zle_Qle. }
  apply (int_bounds _ 100). split.
  - apply min_nonneg; lra.
  - change (inject_Z 100) with 100. apply min_le_l.
Qed.

(** Clamping then truncating a non-negative score is truncating then
    clamping. *)
Lemma int_min_floor x :
  0 <= x -> Py.int (Py.min 100 x) = Z.min 100 (Qfloor x).
Proof.
  intros Hx. unfold Py.min. destruct (lt_reflect x 100) as [H | H].
  - rewrite int_nonneg by assumption.
    assert (Hf : inject_Z (Qfloor x) < inject_Z 100).
    { change (inject_Z 100) with 100. pose proof (Qfloor_le x). lra. }
    rewrite <- Zlt_Qlt in Hf. lia.
  - rewrite int_nonneg by lra. change (Qfloor 100) with 100%Z.
    assert (Hf : (Qfloor 100 <= Qfloor x)%Z) by (apply Qfloor_resp_le; lra).
    change (Qfloor 100) with 100%Z in Hf. lia.
Qed.

Lemma final_risk_index_floor p r :
  0 <= p ->
  final_risk_index p r
  = Z.min 100 (Qfloor (inject_Z (base_score p) + augmentation_points r)).
Proof.
  intros Hp. unfold final_risk_index. apply int_min_floor.
  pose proof (base_score_nonneg p Hp) as Hb.
  pose proof (augmentation_nonneg r) as Ha.
  assert (Hq : 0 <= inject_Z (base_score p)).
  { change 0 with (inject_Z 0). now rewrite <- Zle_Qle. }
  lra.
Qed.

(** ** The contribution shares *)

Lemma ratio_nonneg a t : 0 <= a -> 0 < t -> 0 <= a / t * 100.
Proof.
  intros Ha Ht.
  assert (H : 0 <= a / t) by (apply Qle_shift_div_l; lra).
  lra.
Qed.

Lemma influences_nonneg r :
  0.1 <= corrosion_score r -> 0 <= change_rate r ->
  0 <= corrosion_influence r /\ 0 <= rate_influence r.
Proof.
  intros Hc Hr. unfold corrosion_influence, rate_influence.
  assert (H1 : 0 <= (corrosion_score r - 0.1) / 0.9)
    by (apply Qle_shift_div_l; lra).
  assert (H2 : 0 <= change_rate r / 1.0) by (apply Qle_shift_div_l; lra).
  lra.
Qed.

Lemma rounded_shares_nonneg r :
  0.1 <= corrosion_score r -> 0 <= change_rate r ->
  (0 <= fst (rounded_shares r) /\ 0 <= snd (rounded_shares r))%Z.
Proof.
  intros Hc Hr. destruct (influences_nonneg r Hc Hr) as [Hi Hj].
  unfold rounded_shares, Py.gt.
  destruct (lt_reflect 0.01 (total_dynamic_influence r)) as [Ht | Ht].
  - simpl. split; apply round_nonneg, ratio_nonneg; lra.
  - simpl. lia.
Qed.

(** After the rescaling test the two shares never exceed 100 together. *)
Lemma rescaled_shares_bounds c d :
  (0 <= c)%Z -> (0 <= d)%Z ->
  (0 <= fst (rescaled_shares (c, d)) /\ 0 <= snd (rescaled_shares (c, d))
   /\ fst (rescaled_shares (c, d)) + snd (rescaled_shares (c, d)) <= 100)%Z.
Proof.
  intros Hc Hd. unfold rescaled_shares.
  destruct (Z.ltb_spec 100 (c + d)) as [Hs | Hs]; simpl; [| lia].
  assert (Ht : 0 < inject_Z (c + d)).
  { change 0 with (inject_Z 0). rewrite <- Zlt_Qlt. lia. }
  assert (Hc' : 0 <= inject_Z (c * 100)).
  { change 0 with (inject_Z 0). rewrite <- Zle_Qle. lia. }
  assert (Hd' : 0 <= inject_Z (d * 100)).
  { change 0 with (inject_Z 0). rewrite <- Zle_Qle. lia. }
  repeat split.
  - apply round_nonneg, Qle_shift_div_l; lra.
  - apply round_nonneg, Qle_shift_div_l; lra.
  - apply round_add_le_even; [reflexivity |].
    apply Qle_lteq. right.
    rewrite !inject_Z_mult, !inject_Z_plus in *.
    change (inject_Z 100) with 100. field. lra.
Qed.

Lemma contribution_shares_bounds r :
  0.1 <= corrosion_score r -> 0 <= change_rate r ->
  (0 <= fst (contribution_shares r) <= 100
   /\ 0 <= snd (contribution_shares r) <= 100
   /\ fst (contribution_shares r) + snd (contribution_shares r) <= 100)%Z.
Proof.
  intros Hc Hr. unfold contribution_shares.
  destruct (rounded_shares_nonneg r Hc Hr) as [H1 H2].
  destruct (rounded_shares r) as [c d]. simpl in H1, H2.
  pose proof (rescaled_shares_bounds c d H1 H2). lia.
Qed.

Lemma vib_temp_contrib_bounds c d :
  (0 <= c)%Z -> (0 <= d)%Z -> (c + d <= 100)%Z ->
  (0 <= vib_temp_contrib c d <= 100
   /\ c + d + vib_temp_contrib c d = 100)%Z.
Proof.
  intros Hc Hd Hs. unfold vib_temp_contrib. cbv zeta.
  destruct (Z.ltb_spec (100 - c - d) 0); lia.
Qed.

(** Within the documented ranges, exact arithmetic never takes the rescaling
    branch: with a non-negative mechanical influence the two ratios sum to at
    most 100, and a tie is rounded to the even side. *)
Lemma rescaling_idle_in_range r :
  valid_reading r -> contribution_shares r = rounded_shares r.
Proof.
  intros [Hv Ht Hc Hr _ _ _ _].
  destruct (influences_nonneg r) as [Hi Hj]; [lra | lra |].
  unfold contribution_shares, rounded_shares, Py.gt.
  destruct (lt_reflect 0.01 (total_dynamic_influence r)) as [Hpos | Hpos];
    [| reflexivity].
  unfold rescaled_shares.
  match goal with
  | |- context [(100 <? ?s)%Z] => destruct (Z.ltb_spec 100 s) as [Hs | Hs]
  end; [exfalso | reflexivity].
  assert (Hm : 0 <= temp_vib_influence r).
  { unfold temp_vib_influence, temp_normalized, vib_normalized.
    assert (H1 : 0 <= (temp r - 30) / 55) by (apply Qle_shift_div_l; lra).
    assert (H2 : 0 <= (vibration r - 1) / 24) by (apply Qle_shift_div_l; lra).
    apply Qle_shift_div_l; lra. }
  assert (Hle : corrosion_influence r / total_dynamic_influence r * 100
                + rate_influence r / total_dynamic_influence r * 100
                <= inject_Z 100).
  { change (inject_Z 100) with 100.
    assert (E : corrosion_influence r / total_dynamic_influence r * 100
                + rate_influence r / total_dynamic_influence r * 100
                == (corrosion_influence r + rate_influence r) * 100
                   / total_dynamic_influence r) by (field; lra).
    rewrite E. apply Qle_shift_div_r; [lra |].
    unfold total_dynamic_influence in *. lra. }
  pose proof (round_add_le_even _ _ 100 eq_refl Hle). lia.
Qed.

(** ** The result depends on the eight numbers and on the probability only *)

Lemma ite_comp (b b' : bool) (x x' y y' : Q) :
  b = b' -> x == x' -> y == y' ->
  (if b then x else y) == (if b' then x' else y').
Proof. intros -> Hx Hy. destruct b'; assumption. Qed.

Section SameReading.

Variables r1 r2 : SensorReading.
Hypothesis Hsame : same_reading r1 r2.

Lemma temp_normalized_same : temp_normalized r1 == temp_normalized r2.
Proof. unfold temp_normalized. now rewrite (same_temp _ _ Hsame). Qed.

Lemma vib_normalized_same : vib_normalized r1 == vib_normalized r2.
Proof. unfold vib_normalized. now rewrite (same_vibration _ _ Hsame). Qed.

Lemma augmentation_same : augmentation_points r1 == augmentation_points r2.
Proof.
  rewrite !extra_risk_points_sum.
  pose proof temp_normalized_same as Ht.
  pose proof vib_normalized_same as Hv.
  destruct Hsame as [_ _ _ _ Hf Hl Hs Hr].
  unfold Spec.augmentation, Spec.temperature_term, Spec.vibration_term,
    Spec.under_flow_term, Spec.over_flow_term, Spec.lubrication_term,
    Spec.stress_term, Spec.rul_term.
  repeat apply Qplus_comp; apply ite_comp;
    try reflexivity;
    try (apply gt_comp || apply lt_comp; (assumption || reflexivity)).
  - now rewrite Ht.
  - now rewrite Hv.
  - now rewrite Hf.
  - now rewrite Hf.
  - now rewrite Hl.
  - now rewrite Hs.
  - now rewrite Hr.
Qed.

Lemma final_risk_index_same p1 p2 :
  p1 == p2 -> final_risk_index p1 r1 = final_risk_index p2 r2.
Proof.
  intros Hp. unfold final_risk_index, base_score.
  apply int_comp, min_comp; [reflexivity |].
  rewrite augmentation_same.
  assert (E : Py.round (p1 * 120) = Py.round (p2 * 120))
    by (apply round_comp; now rewrite Hp).
  rewrite E. reflexivity.
Qed.

Lemma corrosion_influence_same :
  corrosion_influence r1 == corrosion_influence r2.
Proof.
  unfold corrosion_influence. now rewrite (same_corrosion _ _ Hsame).
Qed.

Lemma rate_influence_same : rate_influence r1 == rate_influence r2.
Proof. unfold rate_influence. now rewrite (same_change_rate _ _ Hsame). Qed.

Lemma total_dynamic_influence_same :
  total_dynamic_influence r1 == total_dynamic_influence r2.
Proof.
  unfold total_dynamic_influence, temp_vib_influence.
  now rewrite corrosion_influence_same, rate_influence_same,
    temp_normalized_same, vib_normalized_same.
Qed.

Lemma contribution_shares_same :
  contribution_shares r1 = contribution_shares r2.
Proof.
  unfold contribution_shares. f_equal. unfold rounded_shares.
  rewrite (gt_comp _ _ total_dynamic_influence_same _ _ (Qeq_refl 0.01)).
  destruct (Py.gt (total_dynamic_influence r2) 0.01); [| reflexivity].
  f_equal; apply round_comp.
  - now rewrite corrosion_influence_same, total_dynamic_influence_same.
  - now rewrite rate_influence_same, total_dynamic_influence_same.
Qed.

End SameReading.

(** ** [calculate_aris_data] always returns *)

Lemma calculate_aris_data_total m r :
  exists risk_index corr rate,
    calculate_aris_data m r = inr (risk_index, corr, rate).
Proof.
  destruct m as [clf |].
  - destruct (clf (feature_row r)) as [e | p] eqn:E.
    + exists 0%Z, 0%Z, 0%Z.
      apply calculate_aris_data_unavailable. simpl. eauto.
    + eexists _, _, _. apply (calculate_aris_data_returns clf r p E).
  - exists 0%Z, 0%Z, 0%Z. reflexivity.
Qed.

(** ** [explain_risk] *)

Section Explain.

Variables risk_index corr_contrib rate_contrib : Z.
Variables vibration_in flow lube stress rul : Q.

Let e : Explanation :=
  explain_risk risk_index corr_contrib rate_contrib
    vibration_in flow lube stress rul.

(** *** The tier *)

Lemma delta_text_band (t : Tier) :
  (0 <= risk_index <= 100)%Z ->
  delta_text e = t <-> Spec.in_band t risk_index = true.
Proof.
  intros Hi. subst e. unfold explain_risk, delta_text.
  destruct (Z.ltb_spec risk_index 20); [| destruct (Z.ltb_spec risk_index 35);
    [| destruct (Z.ltb_spec risk_index 50);
      [| destruct (Z.ltb_spec risk_index 80)]]];
    destruct t; simpl; split; intros Hband; try discriminate;
    try reflexivity;
    try (exfalso; lia); lia.
Qed.

Lemma recommendation_tier :
  tier_of_recommendation (recommendation e) = delta_text e.
Proof.
  subst e. unfold explain_risk, recommendation, delta_text.
  destruct (Z.ltb_spec risk_index 20); [reflexivity |].
  destruct (Z.leb_spec 20 risk_index); [| lia].
  destruct (Z.ltb_spec risk_index 35); [reflexivity |].
  destruct (Z.leb_spec 35 risk_index); [| lia].
  destruct (Z.ltb_spec risk_index 50); [reflexivity |].
  destruct (Z.leb_spec 50 risk_index); [| lia].
  destruct (Z.ltb_spec risk_index 80); reflexivity.
Qed.

(** *** The cause announced first *)

Lemma main_cause_dominant :
  main_cause e
  = Spec.dominant_factor corr_contrib
      (vib_temp_contrib corr_contrib rate_contrib) rate_contrib.
Proof.
  subst e. unfold explain_risk, main_cause, Spec.dominant_factor,
    Spec.larger, vib_temp_contrib. cbv zeta. cbn [fold_left].
  set (m := if (100 - corr_contrib - rate_contrib <? 0)%Z
            then 0%Z else (100 - corr_contrib - rate_contrib)%Z).
  cbn [snd].
  destruct (Z.ltb_spec corr_contrib m) as [Hcm | Hcm]; cbn [snd];
    destruct (Z.leb_spec m corr_contrib); try lia;
    destruct (Z.leb_spec rate_contrib corr_contrib);
    destruct (Z.leb_spec corr_contrib m);
    destruct (Z.leb_spec rate_contrib m);
    repeat match goal with
           | |- context [(?a <? ?b)%Z] => destruct (Z.ltb_spec a b)
           end; cbn [andb]; try reflexivity; lia.
Qed.

Lemma main_cause_cases :
  let m := vib_temp_contrib corr_contrib rate_contrib in
  (main_cause e = (Corrosion, corr_contrib)
   <-> (m <= corr_contrib /\ rate_contrib <= corr_contrib)%Z)
  /\ (main_cause e = (Mechanical, m)
      <-> (corr_contrib < m /\ rate_contrib <= m)%Z)
  /\ (main_cause e = (RateOfDegradation, rate_contrib)
      <-> (corr_contrib < rate_contrib /\ m < rate_contrib)%Z).
Proof.
  subst e. unfold explain_risk, main_cause, vib_temp_contrib. cbv zeta.
  set (m := if (100 - corr_contrib - rate_contrib <? 0)%Z
            then 0%Z else (100 - corr_contrib - rate_contrib)%Z).
  destruct (Z.leb_spec m corr_contrib), (Z.leb_spec rate_contrib corr_contrib),
    (Z.leb_spec corr_contrib m), (Z.leb_spec rate_contrib m); simpl;
    (split; [| split]); (split; [intros Hcase | intros [Ha Hb]]);
    try discriminate; try reflexivity; try lia; inversion Hcase; lia.
Qed.

End Explain.

(** *** The contributing causes *)

Section Notes.

Variables risk_index corr_contrib rate_contrib : Z.
Variables vibration_in flow lube stress rul : Q.

Let e : Explanation :=
  explain_risk risk_index corr_contrib rate_contrib
    vibration_in flow lube stress rul.

Ltac notes_cases :=
  subst e; unfold explain_risk, notes; cbv zeta;
  split_thresholds; simpl.

Ltac close_membership :=
  intuition (try discriminate; try congruence; try lra).

Lemma low_flow_note : In (AlertNote (LowFlow flow)) (notes e) <-> flow < 0.7.
Proof. notes_cases; close_membership. Qed.

Lemma high_flow_note :
  In (AlertNote (HighFlow flow)) (notes e) <-> 1.1 < flow.
Proof. notes_cases; close_membership. Qed.

Lemma low_lube_note : In (AlertNote (LowLube lube)) (notes e) <-> lube < 0.4.
Proof. notes_cases; close_membership. Qed.

Lemma high_stress_note :
  In (AlertNote (HighStress stress)) (notes e) <-> 0.6 < stress.
Proof. notes_cases; close_membership. Qed.

Lemma low_rul_note : In (AlertNote (LowRUL rul)) (notes e) <-> rul < 0.3.
Proof. notes_cases; close_membership. Qed.

(** Every alert quotes the reading that triggered it. *)
Lemma note_quotes_reading a :
  In (AlertNote a) (notes e) ->
  a = LowFlow flow \/ a = HighFlow flow \/ a = LowLube lube
  \/ a = HighStress stress \/ a = LowRUL rul.
Proof.
  notes_cases; intros H;
    repeat match goal with
           | H : _ \/ _ |- _ => destruct H as [H | H]
           end;
    try contradiction; try discriminate; inversion H; tauto.
Qed.

(** The explicit message appears exactly when no threshold is crossed, and
    then it is alone. *)
Lemma no_critical_notes :
  In NoCriticalNotes (notes e)
  <-> (0.7 <= flow <= 1.1 /\ 0.4 <= lube /\ stress <= 0.6 /\ 0.3 <= rul).
Proof. notes_cases; close_membership. Qed.

Lemma no_critical_notes_alone :
  In NoCriticalNotes (notes e) -> notes e = [NoCriticalNotes].
Proof. notes_cases; close_membership. Qed.

Lemma notes_not_empty : notes e <> [].
Proof. notes_cases; discriminate. Qed.

End Notes.

(** The thresholds of the alerts are those of the augmentation terms. *)
Lemma under_flow_term_pos r : 0 < Spec.under_flow_term r <-> flow_rate r < 0.7.
Proof. unfold Spec.under_flow_term. split_thresholds; split; intros; lra. Qed.

Lemma over_flow_term_pos r : 0 < Spec.over_flow_term r <-> 1.1 < flow_rate r.
Proof. unfold Spec.over_flow_term. split_thresholds; split; intros; lra. Qed.

Lemma lubrication_term_pos r :
  0 < Spec.lubrication_term r <-> lube_health r < 0.4.
Proof. unfold Spec.lubrication_term. split_thresholds; split; intros; lra. Qed.

Lemma stress_term_pos r : 0 < Spec.stress_term r <-> 0.6 < stress_in r.
Proof. unfold Spec.stress_term. split_thresholds; split; intros; lra. Qed.

Lemma rul_term_pos r : 0 < Spec.rul_term r <-> rul_in r < 0.3.
Proof. unfold Spec.rul_term. split_thresholds; split; intros; lra. Qed.

(** ** The guards at work *)

(** Without its guard the first division would raise: on the reading
    [r_rest] the total influence is zero. *)
Example unguarded_ratio_raises :
  Py.div (corrosion_influence r_rest) (total_dynamic_influence r_rest)
  = inl Py.ZeroDivisionError.
Proof. reflexivity. Qed.

Example guarded_ratio_returns :
  calculate_aris_data (Some (stub 0)) r_rest = inr (0, 45, 40)%Z.
Proof. reflexivity. Qed.

(** ** Scenarios of the specification *)

Example scenario_default_readings :
  calculate_aris_data (Some (stub 0.1)) r_scenario = inr (35, 31, 37)%Z.
Proof. vm_compute. reflexivity. Qed.

Example scenario_default_tier :
  delta_text (explain_risk 35 31 37 7.0 1.0 0.8 0.4 0.7) = Medium.
Proof. reflexivity. Qed.

Example scenario_lubrication :
  Spec.lubrication_term (mkReading 7.0 55.0 0.2 0.15 1.0 0.1 0.4 0.7) == 30
  /\ Spec.lubrication_term r_scenario == 0.
Proof. split; vm_compute; reflexivity. Qed.

Example scenario_stress :
  Spec.stress_term (mkReading 7.0 55.0 0.2 0.15 1.0 0.8 0.9 0.7) == 24
  /\ Spec.stress_term (mkReading 7.0 55.0 0.2 0.15 1.0 0.8 0.5 0.7) == 0.
Proof. split; vm_compute; reflexivity. Qed.

(** A classifier that answers outside [0, 1]: the index is clamped from
    above only. *)
Example negative_output_is_not_clamped :
  calculate_aris_data (Some (stub (-0.5))) r_quiet = inr (-60, 0, 0)%Z.
Proof. vm_compute. reflexivity. Qed.

Example large_output_is_clamped :
  calculate_aris_data (Some (stub 7)) r_quiet = inr (100, 0, 0)%Z.
Proof. vm_compute. reflexivity. Qed.

(** Outside the documented ranges the rescaling branch is taken. *)
Example rescaling_taken :
  rounded_shares (mkReading 0.0 30.0 1.0 0.0 1.0 0.8 0.4 0.7) = (101, 0)%Z
  /\ contribution_shares (mkReading 0.0 30.0 1.0 0.0 1.0 0.8 0.4 0.7)
     = (100, 0)%Z.
Proof. split; vm_compute; reflexivity. Qed.

(** The rule of lines 136-141 is not the rule of lines 234-239: with shares
    40 and 30 the explanation names corrosion first while the recommendation
    is written for vibration and temperature. *)
Example action_focus_is_another_rule :
  let e := explain_risk 50 40 30 7.0 1.0 0.8 0.4 0.7 in
  main_cause e = (Corrosion, 40%Z) /\ action_focus e = VibrationTemperature.
Proof. split; reflexivity. Qed.

Lemma r_scenario_valid : valid_reading r_scenario.
Proof. constructor; simpl; lra. Qed.

Lemma r_quiet_valid : valid_reading r_quiet.
Proof. constructor; simpl; lra. Qed.

Lemma quiet_assessment :
  calculate_aris_data (Some (stub 0)) r_quiet = inr (0, 0, 0)%Z.
Proof. vm_compute. reflexivity. Qed.

(** * The properties stated by the specification *)

(** C1.  With a model whose prediction call returns a probability [p] that is
    not negative, [calculate_aris_data] returns an integer risk index between
    0 and 100, whatever the reading and however large [p] is: the upper bound
    is the clamp [min(100, ...)], the lower bound follows from [0 <= p] and
    from augmentation terms that are never negative. *)
Theorem risk_index_in_range (clf : classifier) (r : SensorReading) (p : Q) :
  clf (feature_row r) = inr p ->
  0 <= p ->
  exists risk_index corr rate : Z,
    calculate_aris_data (Some clf) r = inr (risk_index, corr, rate)
    /\ (0 <= risk_index <= 100)%Z.
Proof.
  intros Hclf Hp.
  exists (final_risk_index p r),
    (fst (contribution_shares r)), (snd (contribution_shares r)).
  split.
  - now apply calculate_aris_data_returns.
  - split.
    + now apply final_risk_index_lower.
    + apply final_risk_index_upper.
Qed.

Lemma risk_index_in_range_witness :
  valid_reading r_scenario
  /\ stub 0.1 (feature_row r_scenario) = inr 0.1
  /\ 0 <= 0.1
  /\ exists risk_index corr rate : Z,
       calculate_aris_data (Some (stub 0.1)) r_scenario
       = inr (risk_index, corr, rate)
       /\ (0 <= risk_index <= 100)%Z.
Proof.
  split; [constructor; simpl; lra |].
  split; [reflexivity |].
  split; [lra |].
  apply (risk_index_in_range (stub 0.1) r_scenario 0.1); [reflexivity | lra].
Defined.

(** C2, as amended.  When the model is [None], or when its prediction call
    raises, [calculate_aris_data] returns the triple (0, 0, 0) and raises
    nothing.  The triple carries no marker: it is the very result of the
    assessment, by an available model, of the reading [r_quiet]. *)
Theorem unavailable_returns_zeros (m : model) (r : SensorReading) :
  unavailable m r ->
  calculate_aris_data m r = inr (0, 0, 0)%Z
  /\ calculate_aris_data m r = calculate_aris_data (Some (stub 0)) r_quiet.
Proof.
  intros Hm. rewrite quiet_assessment.
  split; now apply calculate_aris_data_unavailable.
Qed.

Lemma unavailable_returns_zeros_witness :
  unavailable (Some failing) r_scenario
  /\ calculate_aris_data (Some failing) r_scenario = inr (0, 0, 0)%Z
  /\ calculate_aris_data (Some failing) r_scenario
     = calculate_aris_data (Some (stub 0)) r_quiet.
Proof.
  assert (H : unavailable (Some failing) r_scenario).
  { simpl. exists Py.PredictError. reflexivity. }
  split; [exact H |].
  exact (unavailable_returns_zeros (Some failing) r_scenario H).
Defined.

(** C2, as stated, fails: a reading within the documented ranges, assessed
    with an available model that returns probability 0, gives exactly the
    result returned when there is no model.  Nothing in the output tells the
    two apart. *)
Lemma unavailable_marker_absent :
  valid_reading r_quiet
  /\ ~ unavailable (Some (stub 0)) r_quiet
  /\ unavailable None r_quiet
  /\ calculate_aris_data (Some (stub 0)) r_quiet
     = calculate_aris_data None r_quiet.
Proof.
  split; [exact r_quiet_valid |].
  split; [intros [e He]; discriminate He |].
  split; [exact I |].
  rewrite quiet_assessment. reflexivity.
Qed.





(** C5.  The points that [calculate_aris_data] adds to the base score are the
    sum of the terms of the temperature, the vibration, the flow rate (under
    0.7 or over 1.1), the lubrication, the stress and the remaining life, each
    term being zero when its threshold is not crossed. *)
Theorem augmentation_is_sum_of_terms (r : SensorReading) :
  let temp_n := (temp r - 30) / 55 in
  let vib_n := (vibration r - 1) / 24 in
  extra_risk_points temp_n vib_n r
  == (if Py.gt temp_n 0.3 then (temp_n - 0.3) * 150 else 0)
     + (if Py.gt vib_n 0.3 then (vib_n - 0.3) * 150 else 0)
     + (if Py.lt (flow_rate r) 0.7 then (0.7 - flow_rate r) * 50 else 0)
     + (if Py.gt (flow_rate r) 1.1 then (flow_rate r - 1.1) * 75 else 0)
     + (if Py.lt (lube_health r) 0.4 then (0.4 - lube_health r) * 100 else 0)
     + (if Py.gt (stress_in r) 0.6 then (stress_in r - 0.6) * 80 else 0)
     + (if Py.lt (rul_in r) 0.3 then (0.3 - rul_in r) * 120 else 0).
Proof. exact (extra_risk_points_sum r). Qed.

(** C6.  On the indices 0 to 100 the label computed by [explain_risk] is the
    one tier whose band contains the index: below 20 safe, 20 to 34 low, 35 to
    49 medium, 50 to 79 high, 80 to 100 imminent failure.  The recommendation
    chain of lines 203-220 follows the same bands, and the indices 20, 35, 50
    and 80 open the low, medium, high and imminent-failure bands. *)
Theorem tier_bands (risk_index corr_contrib rate_contrib : Z)
    (vibration_in flow lube stress rul : Q) :
  (0 <= risk_index <= 100)%Z ->
  let explain i :=
    explain_risk i corr_contrib rate_contrib vibration_in flow lube stress rul
  in
  (forall t : Tier,
      delta_text (explain risk_index) = t
      <-> Spec.in_band t risk_index = true)
  /\ tier_of_recommendation (recommendation (explain risk_index))
     = delta_text (explain risk_index)
  /\ delta_text (explain 20%Z) = Low
  /\ delta_text (explain 35%Z) = Medium
  /\ delta_text (explain 50%Z) = High
  /\ delta_text (explain 80%Z) = ImminentFailure.
Proof.
  intros Hi explain. subst explain. cbv beta.
  split; [intros t; now apply delta_text_band |].
  split; [apply recommendation_tier |].
  repeat split; reflexivity.
Qed.

Lemma tier_bands_witness :
  (0 <= 79 <= 100)%Z
  /\ delta_text (explain_risk 79 31 37 7.0 1.0 0.8 0.4 0.7) = High
  /\ Spec.in_band High 79 = true.
Proof.
  assert (Hi : (0 <= 79 <= 100)%Z) by lia.
  split; [exact Hi |].
  destruct (tier_bands 79 31 37 7.0 1.0 0.8 0.4 0.7 Hi) as [Hband _].
  split; [apply (proj2 (Hband High)) |]; reflexivity.
Defined.

(** C7.  The cause that [explain_risk] announces first is the category with
    the largest share among corrosion, mechanical (100 less the two others,
    floored at 0) and rate; on a tie corrosion comes before mechanical and
    mechanical before rate.  It is shown with its share. *)
Theorem dominant_factor_selection (risk_index corr_contrib rate_contrib : Z)
    (vibration_in flow lube stress rul : Q) :
  let e :=
    explain_risk risk_index corr_contrib rate_contrib
      vibration_in flow lube stress rul in
  let mech := vib_temp_contrib corr_contrib rate_contrib in
  main_cause e = Spec.dominant_factor corr_contrib mech rate_contrib
  /\ (main_cause e = (Corrosion, corr_contrib)
      <-> (mech <= corr_contrib /\ rate_contrib <= corr_contrib)%Z)
  /\ (main_cause e = (Mechanical, mech)
      <-> (corr_contrib < mech /\ rate_contrib <= mech)%Z)
  /\ (main_cause e = (RateOfDegradation, rate_contrib)
      <-> (corr_contrib < rate_contrib /\ mech < rate_contrib)%Z).
Proof.
  intros e mech. subst e mech.
  split; [apply main_cause_dominant | apply main_cause_cases].
Qed.

(** C8.  An alert is listed for a factor exactly when its threshold is
    crossed: flow rate under 0.7, flow rate over 1.1, lubrication under 0.4,
    stress over 0.6, remaining life under 0.3.  These are the conditions under
    which the matching augmentation term is positive.  Every alert quotes
    the reading of its factor, and when no threshold is crossed the list is
    the single explicit message, never the empty list. *)
Theorem subordinate_alerts (risk_index corr_contrib rate_contrib : Z)
    (r : SensorReading) :
  let e :=
    explain_risk risk_index corr_contrib rate_contrib (vibration r)
      (flow_rate r) (lube_health r) (stress_in r) (rul_in r) in
  ((In (AlertNote (LowFlow (flow_rate r))) (notes e) <-> flow_rate r < 0.7)
   /\ (In (AlertNote (HighFlow (flow_rate r))) (notes e)
       <-> 1.1 < flow_rate r)
   /\ (In (AlertNote (LowLube (lube_health r))) (notes e)
       <-> lube_health r < 0.4)
   /\ (In (AlertNote (HighStress (stress_in r))) (notes e)
       <-> 0.6 < stress_in r)
   /\ (In (AlertNote (LowRUL (rul_in r))) (notes e) <-> rul_in r < 0.3))
  /\ ((In (AlertNote (LowFlow (flow_rate r))) (notes e)
       <-> 0 < Spec.under_flow_term r)
      /\ (In (AlertNote (HighFlow (flow_rate r))) (notes e)
          <-> 0 < Spec.over_flow_term r)
      /\ (In (AlertNote (LowLube (lube_health r))) (notes e)
          <-> 0 < Spec.lubrication_term r)
      /\ (In (AlertNote (HighStress (stress_in r))) (notes e)
          <-> 0 < Spec.stress_term r)
      /\ (In (AlertNote (LowRUL (rul_in r))) (notes e)
          <-> 0 < Spec.rul_term r))
  /\ (forall a : Alert,
         In (AlertNote a) (notes e) ->
         a = LowFlow (flow_rate r) \/ a = HighFlow (flow_rate r)
         \/ a = LowLube (lube_health r) \/ a = HighStress (stress_in r)
         \/ a = LowRUL (rul_in r))
  /\ (In NoCriticalNotes (notes e)
      <-> (0.7 <= flow_rate r <= 1.1 /\ 0.4 <= lube_health r
           /\ stress_in r <= 0.6 /\ 0.3 <= rul_in r))
  /\ (In NoCriticalNotes (notes e) -> notes e = [NoCriticalNotes])
  /\ notes e <> [].
Proof.
  intros e. subst e.
  split; [| split; [| split; [| split; [| split]]]].
  - repeat split;
      first [ apply low_flow_note | apply high_flow_note | apply low_lube_note
            | apply high_stress_note | apply low_rul_note ].
  - rewrite under_flow_term_pos, over_flow_term_pos, lubrication_term_pos,
      stress_term_pos, rul_term_pos.
    repeat split;
      first [ apply low_flow_note | apply high_flow_note | apply low_lube_note
            | apply high_stress_note | apply low_rul_note ].
  - apply note_quotes_reading.
  - apply no_critical_notes.
  - apply no_critical_notes_alone.
  - apply notes_not_empty.
Qed.




(** ** Monotonicity of the primitives *)

Lemma round_mono x y : x <= y -> (Py.round x <= Py.round y)%Z.
Proof.
  intros Hxy.
  destruct (round_spec x) as [[Hx _] [_ Htx]].
  destruct (round_spec y) as [[_ Hy] [Hty _]].
  set (kx := Py.round x) in *. set (ky := Py.round y) in *.
  assert (H : inject_Z kx <= inject_Z (ky + 1)).
  { rewrite inject_Z_plus. change (inject_Z 1) with 1. lra. }
  rewrite <- Zle_Qle in H.
  destruct (Z.eq_dec kx (ky + 1)) as [E | E]; [exfalso | lia].
  assert (EQ : inject_Z kx == inject_Z ky + 1).
  { rewrite E, inject_Z_plus. reflexivity. }
  assert (Ex : Z.even kx = true) by (apply Htx; lra).
  assert (Ey : Z.even ky = true) by (apply Hty; lra).
  rewrite E, Z.even_add, Ey in Ex. discriminate.
Qed.

Lemma int_mono x y : x <= y -> (Py.int x <= Py.int y)%Z.
Proof.
  intros Hxy. unfold Py.int.
  destruct (lt_reflect x 0) as [Hx | Hx], (lt_reflect y 0) as [Hy | Hy].
  - now apply Qceiling_resp_le.
  - assert (H1 : (Qceiling x <= Qceiling 0)%Z) by (apply Qceiling_resp_le; lra).
    assert (H2 : (Qfloor 0 <= Qfloor y)%Z) by (apply Qfloor_resp_le; lra).
    change (Qceiling 0) with 0%Z in H1. change (Qfloor 0) with 0%Z in H2. lia.
  - lra.
  - now apply Qfloor_resp_le.
Qed.

Lemma min_mono a x y : x <= y -> Py.min a x <= Py.min a y.
Proof.
  intros Hxy. unfold Py.min.
  destruct (lt_reflect x a), (lt_reflect y a); lra.
Qed.

Lemma final_risk_index_mono p1 p2 r1 r2 :
  p1 <= p2 -> augmentation_points r1 <= augmentation_points r2 ->
  (final_risk_index p1 r1 <= final_risk_index p2 r2)%Z.
Proof.
  intros Hp Ha. unfold final_risk_index, base_score.
  apply int_mono, min_mono.
  assert (H : (Py.round (p1 * 120) <= Py.round (p2 * 120))%Z)
    by (apply round_mono; lra).
  rewrite Zle_Qle in H. lra.
Qed.

(** ** Normalized values without division *)

Lemma temp_normalized_linear r :
  temp_normalized r == (temp r - 30) * (1 # 55).
Proof. reflexivity. Qed.

Lemma vib_normalized_linear r :
  vib_normalized r == (vibration r - 1) * (1 # 24).
Proof. reflexivity. Qed.

Ltac linear_normalized :=
  repeat match goal with
         | |- context [temp_normalized ?r] =>
           let t := fresh "tn" in
           pose proof (temp_normalized_linear r);
           set (t := temp_normalized r) in *
         | |- context [vib_normalized ?r] =>
           let v := fresh "vn" in
           pose proof (vib_normalized_linear r);
           set (v := vib_normalized r) in *
         end.

Ltac unfold_terms :=
  unfold Spec.augmentation, Spec.temperature_term, Spec.vibration_term,
    Spec.under_flow_term, Spec.over_flow_term, Spec.lubrication_term,
    Spec.stress_term, Spec.rul_term.

Lemma augmentation_mono r1 r2 :
  at_least_as_degraded r1 r2 ->
  augmentation_points r1 <= augmentation_points r2.
Proof.
  intros [Ht Hv Hf Hl Hs Hr]. rewrite !extra_risk_points_sum.
  unfold Spec.augmentation.
  assert (H1 : Spec.temperature_term r1 <= Spec.temperature_term r2).
  { unfold Spec.temperature_term. linear_normalized.
    split_thresholds; lra. }
  assert (H2 : Spec.vibration_term r1 <= Spec.vibration_term r2).
  { unfold Spec.vibration_term. linear_normalized.
    split_thresholds; lra. }
  assert (H3 : Spec.under_flow_term r1 + Spec.over_flow_term r1
               <= Spec.under_flow_term r2 + Spec.over_flow_term r2).
  { unfold Spec.under_flow_term, Spec.over_flow_term.
    destruct Hf as [E | [[Ha Hb] | [Ha Hb]]]; split_thresholds; lra. }
  assert (H4 : Spec.lubrication_term r1 <= Spec.lubrication_term r2).
  { unfold Spec.lubrication_term. split_thresholds; lra. }
  assert (H5 : Spec.stress_term r1 <= Spec.stress_term r2).
  { unfold Spec.stress_term. split_thresholds; lra. }
  assert (H6 : Spec.rul_term r1 <= Spec.rul_term r2).
  { unfold Spec.rul_term. split_thresholds; lra. }
  lra.
Qed.

Lemma augmentation_at_rest r : at_rest r -> augmentation_points r == 0.
Proof.
  intros [Ht Hv Hf Hl Hs Hr]. rewrite extra_risk_points_sum.
  unfold_terms. linear_normalized. split_thresholds; lra.
Qed.

Lemma augmentation_bounds r :
  valid_reading r ->
  Spec.temperature_term r <= 105 /\ Spec.vibration_term r <= 105
  /\ Spec.under_flow_term r <= 10 /\ Spec.over_flow_term r <= 30
  /\ Spec.under_flow_term r + Spec.over_flow_term r <= 30
  /\ Spec.lubrication_term r <= 40 /\ Spec.stress_term r <= 32
  /\ Spec.rul_term r <= 36.
Proof.
  intros [Hv Ht _ _ Hf Hl Hs Hr]. unfold_terms. linear_normalized.
  repeat split; split_thresholds; lra.
Qed.

(** ** Readings that agree on what a value reads *)

Lemma contribution_shares_features r1 r2 :
  same_features r1 r2 -> contribution_shares r1 = contribution_shares r2.
Proof.
  intros (Hv & Ht & Hc & Hr).
  change (contribution_shares r2)
    with (contribution_shares
            (mkReading (vibration r2) (temp r2) (corrosion_score r2)
               (change_rate r2) (flow_rate r1) (lube_health r1)
               (stress_in r1) (rul_in r1))).
  apply contribution_shares_same.
  constructor; simpl; (assumption || reflexivity).
Qed.

Lemma final_risk_index_inspection p r1 r2 :
  same_but_inspection r1 r2 -> final_risk_index p r1 = final_risk_index p r2.
Proof.
  intros (Hv & Ht & Hf & Hl & Hs & Hr).
  change (final_risk_index p r2)
    with (final_risk_index p
            (mkReading (vibration r2) (temp r2) (corrosion_score r1)
               (change_rate r1) (flow_rate r2) (lube_health r2)
               (stress_in r2) (rul_in r2))).
  apply final_risk_index_same; [| reflexivity].
  constructor; simpl; (assumption || reflexivity).
Qed.

(** * Further properties of [calculate_aris_data] *)

(** X1.  A higher probability and a reading that is at least as degraded on
    every factor of the augmentation never give a lower risk index. *)
Theorem risk_index_monotone (clf1 clf2 : classifier)
    (r1 r2 : SensorReading) (p1 p2 : Q) :
  clf1 (feature_row r1) = inr p1 ->
  clf2 (feature_row r2) = inr p2 ->
  p1 <= p2 ->
  at_least_as_degraded r1 r2 ->
  exists i1 c1 d1 i2 c2 d2 : Z,
    calculate_aris_data (Some clf1) r1 = inr (i1, c1, d1)
    /\ calculate_aris_data (Some clf2) r2 = inr (i2, c2, d2)
    /\ (i1 <= i2)%Z.
Proof.
  intros H1 H2 Hp Hd.
  eexists _, _, _, _, _, _.
  split; [apply (calculate_aris_data_returns clf1 r1 p1 H1) |].
  split; [apply (calculate_aris_data_returns clf2 r2 p2 H2) |].
  apply final_risk_index_mono; [exact Hp | now apply augmentation_mono].
Qed.

Lemma risk_index_monotone_witness :
  exists i1 c1 d1 i2 c2 d2 : Z,
    calculate_aris_data (Some (stub 0.1)) r_scenario = inr (i1, c1, d1)
    /\ calculate_aris_data (Some (stub 0.5)) r_worst = inr (i2, c2, d2)
    /\ (i1 <= i2)%Z.
Proof.
  apply (risk_index_monotone (stub 0.1) (stub 0.5) r_scenario r_worst 0.1 0.5);
    [reflexivity | reflexivity | lra |].
  constructor; simpl; try lra.
  right; right; simpl; lra.
Defined.

(** X2.  From the probability 199/240 on (about 0.83) the base score alone
    reaches 100: the risk index is 100 whatever the reading. *)
Theorem risk_index_saturates (clf : classifier) (r : SensorReading) (p : Q) :
  clf (feature_row r) = inr p ->
  199 # 240 <= p ->
  exists corr rate : Z,
    calculate_aris_data (Some clf) r = inr (100%Z, corr, rate).
Proof.
  intros Hclf Hp.
  exists (fst (contribution_shares r)), (snd (contribution_shares r)).
  rewrite (calculate_aris_data_returns clf r p Hclf). do 3 f_equal.
  assert (Hb : (100 <= base_score p)%Z).
  { change 100%Z with (Py.round (199 # 2)). apply round_mono. lra. }
  pose proof (augmentation_nonneg r) as Ha.
  rewrite Zle_Qle in Hb. change (inject_Z 100) with 100 in Hb.
  unfold final_risk_index, Py.min.
  destruct (lt_reflect (inject_Z (base_score p) + augmentation_points r) 100);
    [lra | reflexivity].
Qed.

Lemma risk_index_saturates_witness :
  exists corr rate : Z,
    calculate_aris_data (Some (stub 0.9)) r_quiet = inr (100%Z, corr, rate).
Proof.
  apply (risk_index_saturates (stub 0.9) r_quiet 0.9); [reflexivity | lra].
Defined.



(** X4.  Within the documented ranges the augmentation adds between 0 and
    348 points, and at most 138 when the temperature and the vibration are
    under their thresholds (46.5 degrees, 8.2 mm/s). *)
Theorem augmentation_bounded (r : SensorReading) :
  valid_reading r ->
  let points :=
    extra_risk_points ((temp r - 30) / 55) ((vibration r - 1) / 24) r in
  0 <= points <= 348
  /\ (temp r <= 46.5 -> vibration r <= 8.2 -> points <= 138).
Proof.
  intros Hv points. subst points.
  fold (temp_normalized r) (vib_normalized r) (augmentation_points r).
  pose proof (augmentation_nonneg r) as H0.
  pose proof (augmentation_bounds r Hv) as (B1 & B2 & B3 & B4 & B5 & B6 & B7 & B8).
  assert (E := extra_risk_points_sum r). unfold Spec.augmentation in E.
  split; [split; [exact H0 | lra] |].
  intros Ht Hvb.
  assert (Z1 : Spec.temperature_term r == 0).
  { unfold Spec.temperature_term. linear_normalized. split_thresholds; lra. }
  assert (Z2 : Spec.vibration_term r == 0).
  { unfold Spec.vibration_term. linear_normalized. split_thresholds; lra. }
  lra.
Qed.

Lemma augmentation_bounded_witness :
  valid_reading r_worst
  /\ extra_risk_points ((temp r_worst - 30) / 55)
       ((vibration r_worst - 1) / 24) r_worst == 348.
Proof.
  assert (Hv : valid_reading r_worst) by (constructor; simpl; lra).
  split; [exact Hv |].
  destruct (augmentation_bounded r_worst Hv) as [[_ Hle] _].
  apply Qle_antisym; [exact Hle |].
  vm_compute. discriminate.
Defined.

(** X5.  With a corrosion score of at least 0.1 and a change rate that is not
    negative, the two returned shares and the mechanical share that
    [explain_risk] derives from them sum to exactly 100. *)
Theorem shares_sum_to_100 (clf : classifier) (r : SensorReading) (p : Q) :
  clf (feature_row r) = inr p ->
  0.1 <= corrosion_score r ->
  0 <= change_rate r ->
  exists risk_index corr rate : Z,
    calculate_aris_data (Some clf) r = inr (risk_index, corr, rate)
    /\ (corr + rate + vib_temp_contrib corr rate = 100)%Z.
Proof.
  intros Hclf Hc Hr.
  eexists _, _, _.
  split; [apply (calculate_aris_data_returns clf r p Hclf) |].
  destruct (contribution_shares_bounds r Hc Hr) as (H1 & H2 & H3).
  apply vib_temp_contrib_bounds; lia.
Qed.

Lemma shares_sum_to_100_witness :
  exists risk_index corr rate : Z,
    calculate_aris_data (Some (stub 0.1)) r_scenario
    = inr (risk_index, corr, rate)
    /\ (corr + rate + vib_temp_contrib corr rate = 100)%Z.
Proof.
  apply (shares_sum_to_100 (stub 0.1) r_scenario 0.1);
    [reflexivity | simpl; lra | simpl; lra].
Defined.

(** X6.  The two shares depend on the four numbers of the classifier's row
    only: neither the probability nor the flow rate, the lubrication, the
    stress or the remaining life changes them. *)
Theorem shares_ignore_probability (clf1 clf2 : classifier)
    (r1 r2 : SensorReading) (p1 p2 : Q) :
  clf1 (feature_row r1) = inr p1 ->
  clf2 (feature_row r2) = inr p2 ->
  same_features r1 r2 ->
  exists i1 i2 corr rate : Z,
    calculate_aris_data (Some clf1) r1 = inr (i1, corr, rate)
    /\ calculate_aris_data (Some clf2) r2 = inr (i2, corr, rate).
Proof.
  intros H1 H2 Hf.
  eexists _, _, _, _.
  split; [apply (calculate_aris_data_returns clf1 r1 p1 H1) |].
  rewrite (calculate_aris_data_returns clf2 r2 p2 H2).
  rewrite (contribution_shares_features r1 r2 Hf). reflexivity.
Qed.

Lemma shares_ignore_probability_witness :
  exists i1 i2 corr rate : Z,
    calculate_aris_data (Some (stub 0.1)) r_scenario = inr (i1, corr, rate)
    /\ calculate_aris_data (Some (stub 0.9))
         (mkReading 7.0 55.0 0.2 0.15 1.5 0.0 1.0 0.0)
       = inr (i2, corr, rate).
Proof.
  apply (shares_ignore_probability (stub 0.1) (stub 0.9) r_scenario
           (mkReading 7.0 55.0 0.2 0.15 1.5 0.0 1.0 0.0) 0.1 0.9);
    [reflexivity | reflexivity |].
  repeat split; reflexivity.
Defined.

(** X7.  The corrosion score and the change rate reach the risk index
    through the classifier only: with the same probability and the same six
    other readings the index is the same. *)
Theorem risk_index_ignores_inspection (clf1 clf2 : classifier)
    (r1 r2 : SensorReading) (p : Q) :
  clf1 (feature_row r1) = inr p ->
  clf2 (feature_row r2) = inr p ->
  same_but_inspection r1 r2 ->
  exists risk_index c1 d1 c2 d2 : Z,
    calculate_aris_data (Some clf1) r1 = inr (risk_index, c1, d1)
    /\ calculate_aris_data (Some clf2) r2 = inr (risk_index, c2, d2).
Proof.
  intros H1 H2 Hs.
  eexists _, _, _, _, _.
  split; [apply (calculate_aris_data_returns clf1 r1 p H1) |].
  rewrite (calculate_aris_data_returns clf2 r2 p H2).
  rewrite (final_risk_index_inspection p r1 r2 Hs). reflexivity.
Qed.

Lemma risk_index_ignores_inspection_witness :
  exists risk_index c1 d1 c2 d2 : Z,
    calculate_aris_data (Some (stub 0.1)) r_scenario
    = inr (risk_index, c1, d1)
    /\ calculate_aris_data (Some (stub 0.1))
         (mkReading 7.0 55.0 0.9 0.8 1.0 0.8 0.4 0.7)
       = inr (risk_index, c2, d2).
Proof.
  apply (risk_index_ignores_inspection (stub 0.1) (stub 0.1) r_scenario
           (mkReading 7.0 55.0 0.9 0.8 1.0 0.8 0.4 0.7) 0.1);
    [reflexivity | reflexivity |].
  repeat split; reflexivity.
Defined.

(** * Further properties of [explain_risk] *)

Lemma action_focus_threshold (c : Z) (v : Q) :
  ((100 - c <? c)%Z || ((50 <? c)%Z && Py.lt v 10))%bool = (50 <? c)%Z.
Proof.
  destruct (Z.ltb_spec (100 - c) c), (Z.ltb_spec 50 c); simpl;
    try reflexivity; lia.
Qed.

Lemma action_focus_corrosion (risk_index corr_contrib rate_contrib : Z)
    (vibration_in flow lube stress rul : Q) :
  action_focus
    (explain_risk risk_index corr_contrib rate_contrib vibration_in
       flow lube stress rul) = CorrosionIntegrity
  <-> (50 < corr_contrib)%Z.
Proof.
  unfold explain_risk. cbv zeta. rewrite action_focus_threshold. simpl.
  destruct (Z.ltb_spec 50 corr_contrib); split; intros H0;
    try reflexivity; try discriminate; lia.
Qed.

(** X8.  The argument [vibration_in] has no effect on what [explain_risk]
    decides: its only test is implied by the one beside it, and the action
    focus is the corrosion inspection exactly when the corrosion share
    exceeds 50. *)
Theorem vibration_in_is_ignored (risk_index corr_contrib rate_contrib : Z)
    (v1 v2 flow lube stress rul : Q) :
  explain_risk risk_index corr_contrib rate_contrib v1 flow lube stress rul
  = explain_risk risk_index corr_contrib rate_contrib v2 flow lube stress rul
  /\ (action_focus
        (explain_risk risk_index corr_contrib rate_contrib v1
           flow lube stress rul) = CorrosionIntegrity
      <-> (50 < corr_contrib)%Z).
Proof.
  split; [| apply action_focus_corrosion].
  unfold explain_risk. cbv zeta. rewrite !action_focus_threshold.
  reflexivity.
Qed.

(** X9.  The tier never goes down when the index goes up, on all integers:
    an index under 0 is safe and one over 100 is an imminent failure. *)
Theorem tier_monotone (i j corr_contrib rate_contrib : Z)
    (vibration_in flow lube stress rul : Q) :
  (i <= j)%Z ->
  let tier x :=
    delta_text (explain_risk x corr_contrib rate_contrib
                  vibration_in flow lube stress rul) in
  (tier_rank (tier i) <= tier_rank (tier j))%Z
  /\ ((i < 0)%Z -> tier i = Safe)
  /\ ((100 < j)%Z -> tier j = ImminentFailure).
Proof.
  intros Hij tier. subst tier. unfold explain_risk, delta_text. cbv zeta.
  repeat match goal with
         | |- context [(?a <? ?b)%Z] => destruct (Z.ltb_spec a b)
         end; simpl; repeat split; intros; try reflexivity; lia.
Qed.

Lemma tier_monotone_witness :
  (tier_rank (delta_text (explain_risk 34 31 37 7.0 1.0 0.8 0.4 0.7))
   <= tier_rank (delta_text (explain_risk 35 31 37 7.0 1.0 0.8 0.4 0.7)))%Z.
Proof.
  assert (H : (34 <= 35)%Z) by lia.
  exact (proj1 (tier_monotone 34 35 31 37 7.0 1.0 0.8 0.4 0.7 H)).
Defined.

(** X10.  [explain_risk] lists between one and four notes: the two flow
    alerts exclude each other. *)
Theorem notes_count (risk_index corr_contrib rate_contrib : Z)
    (vibration_in flow lube stress rul : Q) :
  let e :=
    explain_risk risk_index corr_contrib rate_contrib
      vibration_in flow lube stress rul in
  (1 <= List.length (notes e) <= 4)%nat
  /\ ~ (In (AlertNote (LowFlow flow)) (notes e)
        /\ In (AlertNote (HighFlow flow)) (notes e)).
Proof.
  intros e. subst e. split.
  - unfold explain_risk, notes. cbv zeta.
    split_thresholds; simpl; try lia; exfalso; lra.
  - rewrite low_flow_note, high_flow_note. intros [H1 H2]. lra.
Qed.

(** * The page of [app.py] *)

Lemma assess_returns (clf : classifier) r p :
  clf (feature_row r) = inr p ->
  assess (Some clf) r
  = inr (explain_risk (final_risk_index p r)
           (fst (contribution_shares r)) (snd (contribution_shares r))
           (vibration r) (flow_rate r) (lube_health r) (stress_in r)
           (rul_in r)).
Proof.
  intros Hclf. unfold assess.
  rewrite (calculate_aris_data_returns clf r p Hclf), bind_inr.
  reflexivity.
Qed.

Lemma assess_unavailable m r :
  unavailable m r ->
  assess m r
  = inr (explain_risk 0 0 0 (vibration r) (flow_rate r) (lube_health r)
           (stress_in r) (rul_in r)).
Proof.
  intros Hm. unfold assess.
  rewrite (calculate_aris_data_unavailable m r Hm), bind_inr.
  reflexivity.
Qed.

Lemma round_below (x : Q) (k : Z) :
  x < inject_Z k - (1 # 2) -> (Py.round x < k)%Z.
Proof.
  intros Hx. destruct (round_spec x) as [[Hlo _] _].
  rewrite Zlt_Qlt. lra.
Qed.

Lemma round_above (x : Q) (k : Z) :
  inject_Z k - (1 # 2) < x -> (k <= Py.round x)%Z.
Proof.
  intros Hx. destruct (round_spec x) as [[_ Hhi] _].
  assert (H : inject_Z k < inject_Z (Py.round x + 1)).
  { rewrite inject_Z_plus. change (inject_Z 1) with 1. lra. }
  rewrite <- Zlt_Qlt in H. lia.
Qed.

Lemma final_risk_index_at_rest p r :
  0 <= p -> at_rest r -> final_risk_index p r = Z.min 100 (base_score p).
Proof.
  intros Hp Hrest. rewrite (final_risk_index_floor p r Hp).
  assert (E : inject_Z (base_score p) + augmentation_points r
              == inject_Z (base_score p))
    by (rewrite (augmentation_at_rest r Hrest); ring).
  rewrite (Qfloor_comp _ _ E), Qfloor_Z. reflexivity.
Qed.


(** X12.  When the model is loaded and its prediction call raises, the page
    shows the assessment of a safe asset: tier safe, no intervention, and
    the mechanical share announced as main cause at 100 percent. *)
Theorem failed_prediction_reads_safe (clf : classifier) (r : SensorReading)
    (x : Py.exn) :
  clf (feature_row r) = inl x ->
  exists e : Explanation,
    page (inr clf) r = inr (Assessment e)
    /\ delta_text e = Safe
    /\ recommendation e = NoIntervention
    /\ main_cause e = (Mechanical, 100%Z)
    /\ action_focus e = VibrationTemperature.
Proof.
  intros Hx. eexists. split.
  - unfold page, load_model.
    rewrite (assess_unavailable (Some clf) r) by (simpl; eauto).
    reflexivity.
  - repeat split; reflexivity.
Qed.

Lemma failed_prediction_reads_safe_witness :
  exists e : Explanation,
    page (inr failing) r_worst = inr (Assessment e)
    /\ delta_text e = Safe
    /\ recommendation e = NoIntervention
    /\ main_cause e = (Mechanical, 100%Z)
    /\ action_focus e = VibrationTemperature.
Proof.
  exact (failed_prediction_reads_safe failing r_worst Py.PredictError eq_refl).
Defined.



(** X14.  For shares computed from a corrosion score of at least 0.1 and a
    change rate that is not negative, a recommendation written for the
    corrosion inspection comes with corrosion announced as main cause. *)
Theorem corrosion_focus_agrees_with_cause (clf : classifier)
    (r : SensorReading) (p : Q) :
  clf (feature_row r) = inr p ->
  0.1 <= corrosion_score r ->
  0 <= change_rate r ->
  exists e : Explanation,
    assess (Some clf) r = inr e
    /\ (action_focus e = CorrosionIntegrity -> fst (main_cause e) = Corrosion).
Proof.
  intros Hclf Hc Hr. eexists. split; [apply (assess_returns clf r p Hclf) |].
  destruct (contribution_shares_bounds r Hc Hr) as (H1 & H2 & H3).
  set (c := fst (contribution_shares r)) in *.
  set (d := snd (contribution_shares r)) in *.
  intros Hfocus. apply action_focus_corrosion in Hfocus.
  assert (Hm : (vib_temp_contrib c d <= c /\ d <= c)%Z).
  { unfold vib_temp_contrib. cbv zeta.
    destruct (Z.ltb_spec (100 - c - d) 0); lia. }
  apply (main_cause_cases (final_risk_index p r) c d (vibration r)
           (flow_rate r) (lube_health r) (stress_in r) (rul_in r)) in Hm.
  rewrite Hm. reflexivity.
Qed.

Lemma corrosion_focus_agrees_with_cause_witness :
  exists e : Explanation,
    assess (Some (stub 0.1)) (mkReading 7.0 55.0 0.9 0.15 1.0 0.8 0.4 0.7)
    = inr e
    /\ action_focus e = CorrosionIntegrity
    /\ fst (main_cause e) = Corrosion.
Proof.
  destruct (corrosion_focus_agrees_with_cause (stub 0.1)
              (mkReading 7.0 55.0 0.9 0.15 1.0 0.8 0.4 0.7) 0.1 eq_refl)
    as (e & He & Himp); [simpl; lra | simpl; lra |].
  exists e. split; [exact He |].
  assert (Hf : action_focus e = CorrosionIntegrity).
  { assert (E : inr e
                = assess (Some (stub 0.1))
                    (mkReading 7.0 55.0 0.9 0.15 1.0 0.8 0.4 0.7))
      by (symmetry; exact He).
    vm_compute in E. injection E as ->. reflexivity. }
  split; [exact Hf | exact (Himp Hf)].
Defined.

(** * [get_historical_data] *)

Lemma clip_bounds x lo hi : lo <= hi -> lo <= clip x lo hi <= hi.
Proof.
  intros H. unfold clip. cbv zeta.
  destruct (lt_reflect x lo); split_thresholds; lra.
Qed.

Lemma rounded_clip_bounds x : (0 <= Py.round (clip x 0 100) <= 100)%Z.
Proof.
  destruct (clip_bounds x 0 100) as [Hlo Hhi]; [lra |].
  split.
  - now apply round_nonneg.
  - rewrite <- (round_inject 100). apply round_mono.
    change (inject_Z 100) with 100. exact Hhi.
Qed.

Ltac history_rows :=
  unfold get_historical_data, linspace;
  cbn [seq map combine set_last removelast app List.length fst snd last nth].

(** X15.  The frame has thirty rows, one per day up to today.  Whatever the
    noise, the rows before the last carry an integer between 0 and 100; the
    last row carries the index it was given, unchanged, so the whole column
    is between 0 and 100 exactly when the index is. *)
Theorem history_frame (today : Z) (normal : nat -> Q) (risk_index : Z) :
  let rows := get_historical_data today normal risk_index in
  let in_range (row : Z * Z) := (0 <= snd row <= 100)%Z in
  List.length rows = 30%nat
  /\ map fst rows = map (fun i => (today - 29 + Z.of_nat i)%Z) (seq 0 30)
  /\ last rows (0, 0)%Z = (today, risk_index)
  /\ Forall in_range (removelast rows)
  /\ (Forall in_range rows <-> (0 <= risk_index <= 100)%Z).
Proof.
  intros rows in_range. subst rows in_range. history_rows.
  split; [reflexivity |]. split; [reflexivity |].
  split; [f_equal; lia |]. split.
  - repeat constructor; apply rounded_clip_bounds.
  - split.
    + intros H.
      apply Forall_forall
        with (x := ((today - 29 + Z.of_nat 29)%Z, risk_index)) in H;
        [exact H |].
      simpl. repeat (first [left; reflexivity | right]).
    + intros H.
      repeat (constructor; [first [exact H | apply rounded_clip_bounds] |]).
      constructor.
Qed.

(** * [Assets_Dashboard.py] *)

(** X16.  The colour of a cell depends on the index through its tier only:
    green for safe and low, yellow for medium, orange for high, red for
    imminent failure.  The colour of the bar of a status is this colour for
    safe, high and imminent failure, and another one for low and medium. *)
Theorem cell_colour_follows_tier (val corr_contrib rate_contrib : Z)
    (vibration_in flow lube stress rul : Q) :
  let tier :=
    delta_text (explain_risk val corr_contrib rate_contrib
                  vibration_in flow lube stress rul) in
  Dashboard.color_risk val
  = match tier with
    | Safe | Low => "background-color: #00ba7c"
    | Medium => "background-color: #fff400"
    | High => "background-color: #ff9a00"
    | ImminentFailure => "background-color: #ff4b4b"
    end%string
  /\ (Dashboard.color_risk val
      = ("background-color: " ++ Dashboard.color_discrete_map tier)%string
      <-> tier <> Low /\ tier <> Medium).
Proof.
  intros tier. subst tier.
  unfold explain_risk, delta_text, Dashboard.color_risk. cbv zeta.
  destruct (Z.ltb_spec val 20), (Z.ltb_spec val 35), (Z.ltb_spec val 50),
    (Z.ltb_spec val 80), (Z.leb_spec 80 val), (Z.leb_spec 50 val),
    (Z.leb_spec 35 val); try lia; simpl;
    (split; [reflexivity |]);
    (split; [intros H7; try discriminate; split; discriminate
            | intros [H7 H8]; try reflexivity; congruence]).
Qed.

Example dashboard_statuses_are_tiers :
  map (fun val => delta_text (explain_risk val 0 0 0 0 0 0 0))
      Dashboard.aris_index
  = Dashboard.status.
Proof. reflexivity. Qed.

Lemma high_and_low_disjoint (l : list Z) :
  (List.length (Dashboard.high_risk l) + Dashboard.low_risk_count l
   <= List.length l)%nat.
Proof.
  unfold Dashboard.high_risk, Dashboard.low_risk_count.
  induction l as [| v l IH]; simpl; [lia |].
  destruct (Z.leb_spec 50 v), (Z.ltb_spec v 35); simpl; lia.
Qed.

(** X17.  On any column of indices the assets counted as high risk and those
    counted as low risk are disjoint; the percentage of the second metric
    lies between 0 and 100 when the column is not empty, and computing it
    raises [ZeroDivisionError] exactly when the column is empty. *)
Theorem fleet_metrics (aris_index : list Z) :
  (List.length (Dashboard.high_risk aris_index)
   + Dashboard.low_risk_count aris_index
   <= Dashboard.total_assets aris_index)%nat
  /\ (Dashboard.high_risk_percent aris_index = inl Py.ZeroDivisionError
      <-> aris_index = [])
  /\ (aris_index <> [] ->
      exists q : Q,
        Dashboard.high_risk_percent aris_index = inr q /\ 0 <= q <= 100).
Proof.
  split; [apply high_and_low_disjoint |].
  unfold Dashboard.high_risk_percent, Dashboard.total_assets.
  destruct aris_index as [| v l].
  - split; [split; reflexivity |]. intros H. contradiction.
  - set (idx := v :: l).
    pose proof (high_and_low_disjoint idx) as Hd.
    set (h := List.length (Dashboard.high_risk idx)) in *.
    assert (Hn : (0 < List.length idx)%nat) by (simpl; lia).
    set (n := List.length idx) in *.
    assert (Hq : 0 < inject_Z (Z.of_nat n)).
    { change 0 with (inject_Z 0). rewrite <- Zlt_Qlt. lia. }
    assert (Hh : 0 <= inject_Z (Z.of_nat h) <= inject_Z (Z.of_nat n)).
    { change 0 with (inject_Z 0). rewrite <- !Zle_Qle. lia. }
    rewrite div_nonzero, bind_inr by lra.
    split; [split; discriminate |].
    intros _. eexists. split; [reflexivity |].
    assert (H1 : 0 <= inject_Z (Z.of_nat h) / inject_Z (Z.of_nat n))
      by (apply Qle_shift_div_l; lra).
    assert (H2 : inject_Z (Z.of_nat h) / inject_Z (Z.of_nat n) <= 1)
      by (apply Qle_shift_div_r; lra).
    lra.
Qed.

Lemma fleet_metrics_witness :
  Dashboard.aris_index <> []
  /\ exists q : Q,
       Dashboard.high_risk_percent Dashboard.aris_index = inr q
       /\ 0 <= q <= 100.
Proof.
  assert (H : Dashboard.aris_index <> []) by discriminate.
  split; [exact H |].
  exact (proj2 (proj2 (fleet_metrics Dashboard.aris_index)) H).
Defined.
